(** * Trader: prediction histories, scoring and weight recalibration

    A shallow embedding of [src/Trader.py] (class [Trader]) and the
    properties of its bookkeeping: the two prediction histories, the default
    score, the weight update and the numerical export.

    Conventions of the embedding.
    - A Python/NumPy float is a [float]: either [NaN] or an exact rational
      [Num q].  Rounding, overflow and infinities are abstracted away; the
      NaN sentinel, which the code uses as its "undefined" marker, is kept
      with IEEE propagation through [+], [*] and [np.sign].
    - A NumPy array is an [np.ndarray]: one- or two-dimensional, the shape
      being part of the value ([np.append] without an axis flattens).
    - A raised Python exception is a [Raise e] result; methods that assign
      attributes of [self] run in the state-and-exception monad [M], where
      the state reached so far survives a raise. *)

From Stdlib Require Import String List QArith Lia Bool Arith.
Import ListNotations.

Local Open Scope string_scope.
Local Open Scope list_scope.
Local Open Scope nat_scope.

(** ** Scalars *)

Inductive float : Type :=
| NaN
| Num (q : Q).

Definition isnan (x : float) : bool :=
  match x with NaN => true | Num _ => false end.

(** Float addition and multiplication with NaN propagation.  On numbers
    they are exact: binary64 rounding, overflow to infinity and the NaN of
    [inf + -inf] or [0 * inf] are not modelled. *)
Definition fadd (x y : float) : float :=
  match x, y with
  | Num a, Num b => Num (a + b)
  | _, _ => NaN
  end.

Definition fmul (x y : float) : float :=
  match x, y with
  | Num a, Num b => Num (a * b)
  | _, _ => NaN
  end.

(** [np.sign]: -1, 0 or 1 for a number, NaN for NaN. *)
Definition fsign (x : float) : float :=
  match x with
  | NaN => NaN
  | Num q => Num (inject_Z (Z.sgn (Qnum q)))
  end.

Definition nan : float := NaN.

(** Equality of scalars as numbers: rationals up to [Qeq], NaN only with
    NaN (two undefined markers stand for the same thing). *)
Definition feq (x y : float) : Prop :=
  match x, y with
  | NaN, NaN => True
  | Num a, Num b => (a == b)%Q
  | _, _ => False
  end.

Infix "=f=" := feq (at level 70, no associativity).

(** ** Exceptions and results *)

Inductive exn : Type :=
| AttributeError (name : string)
| IndexError
| ValueError
| TypeError
| NotImplementedError (msg : string)
| LinAlgError.

Inductive result (A : Type) : Type :=
| Ok (a : A)
| Raise (e : exn).

Arguments Ok {A} a.
Arguments Raise {A} e.

Definition rbind {A B} (r : result A) (k : A -> result B) : result B :=
  match r with
  | Ok a => k a
  | Raise e => Raise e
  end.

Notation "'let?' x ':=' r 'in' k" := (rbind r (fun x => k))
  (at level 10, x pattern, r at level 100, k at level 200).

(** A list comprehension whose element expression may raise. *)
Fixpoint comprehension {A B} (f : A -> result B) (l : list A) : result (list B) :=
  match l with
  | [] => Ok []
  | x :: l' =>
      let? y := f x in
      let? ys := comprehension f l' in
      Ok (y :: ys)
  end.

(** [range(a, b)]. *)
Definition range (a b : nat) : list nat := seq a (b - a).

(** [l[j]] for a non-negative index. *)
Definition getitem {A} (l : list A) (j : nat) : result A :=
  match nth_error l j with
  | Some x => Ok x
  | None => Raise IndexError
  end.

(** Python's built-in [sum]: left to right from 0, as [predict] uses it. *)
Definition py_sum (l : list float) : float := fold_left fadd l (Num 0).

(** ** The part of NumPy the class uses *)

Module np.

Inductive ndarray : Type :=
| Arr1 (data : list float)                      (* shape (len data,) *)
| Arr2 (ncols : nat) (rows : list (list float)) (* shape (len rows, ncols) *).

Definition ndim (a : ndarray) : nat :=
  match a with Arr1 _ => 1 | Arr2 _ _ => 2 end.

(** [len(a)], that is [a.shape[0]]. *)
Definition len (a : ndarray) : nat :=
  match a with Arr1 d => length d | Arr2 _ rows => length rows end.

Definition shape (a : ndarray) : list nat :=
  match a with
  | Arr1 d => [length d]
  | Arr2 c rows => [length rows; c]
  end.

Definition ravel (a : ndarray) : list float :=
  match a with Arr1 d => d | Arr2 _ rows => concat rows end.

(** [np.zeros(n)] and [np.zeros([r, c])]. *)
Definition zeros (n : nat) : list float := repeat (Num 0) n.
Definition zeros2 (r c : nat) : ndarray := Arr2 c (repeat (zeros c) r).

(** [a * x] for a scalar [x]. *)
Definition scale1 (a : list float) (x : float) : list float :=
  map (fun y => fmul y x) a.
Definition scale (a : ndarray) (x : float) : ndarray :=
  match a with
  | Arr1 d => Arr1 (scale1 d x)
  | Arr2 c rows => Arr2 c (map (fun r => scale1 r x) rows)
  end.

Fixpoint map2 (f : float -> float -> float) (a b : list float) : list float :=
  match a, b with
  | x :: a', y :: b' => f x y :: map2 f a' b'
  | _, _ => []
  end.

(** [a * b] for one-dimensional operands, with broadcasting: equal
    lengths multiply elementwise, a length-1 operand is stretched,
    anything else does not broadcast. *)
Definition multiply (a b : list float) : result (list float) :=
  if length a =? length b then Ok (map2 fmul a b)
  else match a, b with
       | [x], _ => Ok (map (fun y => fmul x y) b)
       | _, [y] => Ok (map (fun x => fmul x y) a)
       | _, _ => Raise ValueError
       end.

Definition sign (a : list float) : list float := map fsign a.
Definition isnan (a : list float) : list bool := map isnan a.
Definition invert (m : list bool) : list bool := map negb m.

(** [np.sum] of a one-dimensional array: the sum of its entries from 0,
    NaN as soon as one entry is NaN.  NumPy adds the entries pairwise, in
    an order of its own; the order matters only for rounding, which is not
    modelled. *)
Definition sum (a : list float) : float := fold_left fadd a (Num 0).

Fixpoint select {A} (a : list A) (m : list bool) : list A :=
  match a, m with
  | x :: a', b :: m' => if b then x :: select a' m' else select a' m'
  | _, _ => []
  end.

(** [a[m]] for a boolean mask [m]: the mask must be as long as the
    indexed axis. *)
Definition mask1 (a : list float) (m : list bool) : result (list float) :=
  if length a =? length m then Ok (select a m) else Raise IndexError.

Definition mask (a : ndarray) (m : list bool) : result ndarray :=
  match a with
  | Arr1 d => let? d' := mask1 d m in Ok (Arr1 d')
  | Arr2 c rows =>
      if length rows =? length m then Ok (Arr2 c (select rows m))
      else Raise IndexError
  end.

(** [np.append(a, b)] with no axis: both operands are flattened. *)
Definition append (a b : ndarray) : ndarray := Arr1 (ravel a ++ ravel b).

(** [np.append(a, x)] for a one-dimensional [a] and a scalar [x]. *)
Definition append_scalar (a : list float) (x : float) : list float := a ++ [x].

(** [pred_formulas.reshape(1, -1)] of a one-dimensional array. *)
Definition reshape_row (a : list float) : ndarray := Arr2 (length a) [a].

Fixpoint set_nth {A} (l : list A) (t : nat) (v : A) : result (list A) :=
  match l, t with
  | [], _ => Raise IndexError
  | _ :: l', O => Ok (v :: l')
  | x :: l', S t' => let? r := set_nth l' t' v in Ok (x :: r)
  end.

(** The values of [v] broadcast to one row of [c] entries. *)
Definition broadcast_row (c : nat) (v : ndarray) : result (list float) :=
  match ravel v with
  | [x] => Ok (repeat x c)
  | d =>
      match v with
      | Arr1 _ => if length d =? c then Ok d else Raise ValueError
      | Arr2 c' rows =>
          if (length rows =? 1) && (c' =? c) then Ok d else Raise ValueError
      end
  end.

(** [a[t] = v] for an array value [v]. *)
Definition setitem (a : ndarray) (t : nat) (v : ndarray) : result ndarray :=
  match a with
  | Arr1 d =>
      match ravel v with
      | [x] => let? d' := set_nth d t x in Ok (Arr1 d')
      | _ => Raise ValueError
      end
  | Arr2 c rows =>
      if t <? length rows then
        let? r := broadcast_row c v in
        let? rows' := set_nth rows t r in
        Ok (Arr2 c rows')
      else Raise IndexError
  end.

Inductive item : Type :=
| Scalar (x : float)
| Row (r : list float).

(** [a[-1]]: index [-1] counts from the end, so it is entry [len(a) - 1]
    along the first axis. *)
Definition last (a : ndarray) : result item :=
  match a with
  | Arr1 d =>
      match nth_error d (length d - 1) with
      | Some x => Ok (Scalar x)
      | None => Raise IndexError
      end
  | Arr2 _ rows =>
      match nth_error rows (length rows - 1) with
      | Some r => Ok (Row r)
      | None => Raise IndexError
      end
  end.

End np.

(** ** Formulas *)

Definition features : Type := list (list float).

Module Formula.

(** Modelled from the spec: the class [Formula] of module [.Formula],
    which is not among the sources.  The trader only calls
    [predict(feature_arr)], a scalar forecast from a feature window of
    shape [time, #feature], and [to_numerical_repr()], an opaque numeric
    payload. *)
Record t : Type := {
  predict : features -> float;
  to_numerical_repr : list float
}.

End Formula.

(** ** The trader object *)

Record Trader : Type := {
  n_terms : nat;
  weights : list float;
  formulas : list Formula.t;
  max_lag : nat;
  score : float;
  _pred_hist : list float;
  _pred_hist_formulas : np.ndarray
}.

Definition __init__ (weights : list float) (formulas : list Formula.t)
    (max_lag : nat) : Trader :=
  {| n_terms := length formulas;
     weights := weights;
     formulas := formulas;
     max_lag := max_lag;
     score := Num 0;
     _pred_hist := np.scale1 (np.zeros max_lag) nan;
     _pred_hist_formulas := np.scale (np.zeros2 max_lag (length formulas)) nan |}.

(** Attribute lookup by name.  The instance dictionary holds the seven
    names assigned in [__init__]; no method ever adds another, so any
    other name raises [AttributeError]. *)
Inductive pyval : Type :=
| VInt (n : nat)
| VFloat (x : float)
| VList (l : list float)
| VFormulas (l : list Formula.t)
| VArray (a : np.ndarray).

Definition getattr (self : Trader) (name : string) : result pyval :=
  if String.eqb name "n_terms" then Ok (VInt (n_terms self))
  else if String.eqb name "weights" then Ok (VList (weights self))
  else if String.eqb name "formulas" then Ok (VFormulas (formulas self))
  else if String.eqb name "max_lag" then Ok (VInt (max_lag self))
  else if String.eqb name "score" then Ok (VFloat (score self))
  else if String.eqb name "_pred_hist" then Ok (VArray (np.Arr1 (_pred_hist self)))
  else if String.eqb name "_pred_hist_formulas" then Ok (VArray (_pred_hist_formulas self))
  else Raise (AttributeError name).

Definition as_int (v : pyval) : result nat :=
  match v with VInt n => Ok n | _ => Raise TypeError end.

Definition as_array1 (v : pyval) : result (list float) :=
  match v with
  | VArray (np.Arr1 d) => Ok d
  | VList l => Ok l
  | _ => Raise TypeError
  end.

(** Attribute assignment [self.<name> = v]. *)
Definition set_weights (v : list float) (self : Trader) : Trader :=
  {| n_terms := n_terms self; weights := v; formulas := formulas self;
     max_lag := max_lag self; score := score self;
     _pred_hist := _pred_hist self;
     _pred_hist_formulas := _pred_hist_formulas self |}.

Definition set_score (v : float) (self : Trader) : Trader :=
  {| n_terms := n_terms self; weights := weights self; formulas := formulas self;
     max_lag := max_lag self; score := v;
     _pred_hist := _pred_hist self;
     _pred_hist_formulas := _pred_hist_formulas self |}.

Definition set__pred_hist (v : list float) (self : Trader) : Trader :=
  {| n_terms := n_terms self; weights := weights self; formulas := formulas self;
     max_lag := max_lag self; score := score self;
     _pred_hist := v;
     _pred_hist_formulas := _pred_hist_formulas self |}.

Definition set__pred_hist_formulas (v : np.ndarray) (self : Trader) : Trader :=
  {| n_terms := n_terms self; weights := weights self; formulas := formulas self;
     max_lag := max_lag self; score := score self;
     _pred_hist := _pred_hist self;
     _pred_hist_formulas := v |}.

(** ** Methods that only read [self] *)

(** [Trader.predict]. *)
Definition predict (self : Trader) (feature_arr : features) : result float :=
  let? terms :=
    comprehension
      (fun j =>
         let? w := getitem (weights self) j in
         let? f := getitem (formulas self) j in
         Ok (fmul w (Formula.predict f feature_arr)))
      (range 0 (n_terms self)) in
  Ok (py_sum terms).

(** [Trader._predict_with_formula]. *)
Definition _predict_with_formula (self : Trader) (feature_arr : features)
  : result (float * np.ndarray) :=
  let? pred_formulas :=
    comprehension
      (fun j =>
         let? f := getitem (formulas self) j in
         Ok (Formula.predict f feature_arr))
      (range 0 (n_terms self)) in
  let? prod := np.multiply (weights self) pred_formulas in
  let pred_trader := np.sum prod in
  Ok (pred_trader, np.reshape_row pred_formulas).

(** [Trader._to_numerial_repr]: the list comprehension is evaluated, then
    the return expression reads [self.n_temrs]. *)
Definition _to_numerial_repr (self : Trader) : result (nat * list (list float)) :=
  let formula_arr := map Formula.to_numerical_repr (formulas self) in
  let? v := getattr self "n_temrs" in
  let? n := as_int v in
  Ok (n, formula_arr).

(** ** Methods that assign attributes of [self] *)

Definition M (A : Type) : Type := Trader -> Trader * result A.

Definition ret {A} (a : A) : M A := fun self => (self, Ok a).

Definition bind {A B} (m : M A) (k : A -> M B) : M B :=
  fun self =>
    match m self with
    | (self', Ok a) => k a self'
    | (self', Raise e) => (self', Raise e)
    end.

Definition raise {A} (e : exn) : M A := fun self => (self, Raise e).
Definition lift {A} (r : result A) : M A := fun self => (self, r).
Definition read {A} (attr : Trader -> A) : M A := fun self => (self, Ok (attr self)).
Definition this : M Trader := fun self => (self, Ok self).
Definition assign (upd : Trader -> Trader) : M unit := fun self => (upd self, Ok tt).

Notation "x <- m ;; k" := (bind m (fun x => k))
  (at level 61, m at next level, right associativity).
Notation "m ;;; k" := (bind m (fun _ => k))
  (at level 61, right associativity).

Fixpoint for_each {A} (l : list A) (body : A -> M unit) : M unit :=
  match l with
  | [] => ret tt
  | x :: l' => body x ;;; for_each l' body
  end.

(** One pass of the loop of [_recalc_predicts_hist]. *)
Definition recalc_step (feature_arr : features) (t : nat) : M unit :=
  self <- this ;;
  r <- lift (_predict_with_formula self (firstn (t + 1) feature_arr)) ;;
  let '(pred, preds_f) := r in
  h <- read _pred_hist ;;
  h' <- lift (np.set_nth h t pred) ;;
  assign (set__pred_hist h') ;;;
  m <- read _pred_hist_formulas ;;
  m' <- lift (np.setitem m t preds_f) ;;
  assign (set__pred_hist_formulas m').

(** [Trader._recalc_predicts_hist]. *)
Definition _recalc_predicts_hist (feature_arr : features) : M unit :=
  let T := length feature_arr in
  assign (set__pred_hist (np.scale1 (np.zeros T) nan)) ;;;
  n <- read n_terms ;;
  assign (set__pred_hist_formulas (np.scale (np.zeros2 T n) nan)) ;;;
  ml <- read max_lag ;;
  for_each (range ml T) (recalc_step feature_arr).

(** [Trader._append_predicts]. *)
Definition _append_predicts (feature_arr : features) : M unit :=
  self <- this ;;
  r <- lift (_predict_with_formula self feature_arr) ;;
  let '(pred, preds_f) := r in
  h <- read _pred_hist ;;
  assign (set__pred_hist (np.append_scalar h pred)) ;;;
  m <- read _pred_hist_formulas ;;
  assign (set__pred_hist_formulas (np.append m preds_f)).

(** [Trader._update_score]. *)
Definition _update_score (return_arr : list float) (eval_method : string)
  : M unit :=
  if String.eqb eval_method "default" then
    h <- read _pred_hist ;;
    prod <- lift (np.multiply (np.sign h) return_arr) ;;
    sel <- lift (np.mask1 prod (np.invert (np.isnan h))) ;;
    assign (set_score (np.sum sel))
  else
    raise (NotImplementedError ("unknown eval_method : " ++ eval_method)).

Section Recalibration.

(** [OLS(y, X).fit().params] of statsmodels: the coefficient vector of
    the least-squares fit of [y] on the columns of [X], or an exception. *)
Variable OLS_fit_params : list float -> np.ndarray -> result (list float).

(** [Trader._update_weights]. *)
Definition _update_weights (return_arr : list float) : M unit :=
  self <- this ;;
  v <- lift (getattr self "_preds_hist") ;;
  h <- lift (as_array1 v) ;;
  let ind := np.invert (np.isnan h) in
  y <- lift (np.mask1 return_arr ind) ;;
  m <- read _pred_hist_formulas ;;
  X <- lift (np.mask m ind) ;;
  w <- lift (OLS_fit_params y X) ;;
  assign (set_weights w).

End Recalibration.

(** ** The claims' own notions *)

(** A cell holds a prediction when it is not the undefined marker. *)
Definition defined (x : float) : Prop := isnan x = false.

(** The row of formula predictions over a window, and their combination
    with the weights, as [_predict_with_formula] computes them. *)
Definition formula_row (self : Trader) (feature_arr : features) : list float :=
  map (fun f => Formula.predict f feature_arr) (formulas self).

Definition combined (self : Trader) (feature_arr : features) : float :=
  np.sum (np.map2 fmul (weights self) (formula_row self feature_arr)).

(** The terms of the weighted sum of the linearity property, in formula
    order: [weight_i * formula_i.predict(H)] for each [i]. *)
Fixpoint weighted_terms (ws : list float) (fs : list Formula.t) (H : features)
  : list float :=
  match ws, fs with
  | w :: ws', f :: fs' =>
      fmul w (Formula.predict f H) :: weighted_terms ws' fs' H
  | _, _ => []
  end.

(** The terms of the default score, in time order: [sign(prediction_t) *
    return_t] for each position [t] whose prediction is defined. *)
Fixpoint score_terms (preds rets : list float) : list float :=
  match preds, rets with
  | p :: ps, r :: rs =>
      if isnan p then score_terms ps rs
      else fmul (fsign p) r :: score_terms ps rs
  | _, _ => []
  end.

(** The attributes a method leaves alone when it only rebuilds histories. *)
Definition same_config (s s' : Trader) : Prop :=
  n_terms s' = n_terms s /\ weights s' = weights s /\
  formulas s' = formulas s /\ max_lag s' = max_lag s /\ score s' = score s.

(** A trader whose [n_terms] and weights match its formulas. *)
Definition aligned (s : Trader) : Prop :=
  n_terms s = length (formulas s) /\ length (weights s) = length (formulas s).

(** [l'] is [l] with position [t] overwritten by [v]. *)
Definition updated {A} (l l' : list A) (t : nat) (v : A) : Prop :=
  length l' = length l /\
  forall j, nth_error l' j = if j =? t then Some v else nth_error l j.

(** [t] lies in [range(k, k + m)]. *)
Definition in_range (k m t : nat) : bool := (k <=? t) && (t <? k + m).


(** ** Concrete traders used in the scenarios *)

Definition z (n : Z) : float := Num (inject_Z n).

(** A formula that forecasts feature [j] of the newest observation. *)
Definition newest (j : nat) : Formula.t :=
  {| Formula.predict :=
       fun H => match rev H with r :: _ => nth j r NaN | [] => NaN end;
     Formula.to_numerical_repr := [z (Z.of_nat j)] |}.

(** A formula whose forecast is never a number. *)
Definition undefined_formula : Formula.t :=
  {| Formula.predict := fun _ => NaN; Formula.to_numerical_repr := [] |}.

(** Two formulas, unit weights, no lag. *)
Definition two_term_trader : Trader := __init__ [z 1; z 1] [newest 0; newest 1] 0.

(** The regression scenario: per-formula history [[1,0],[0,1],[1,1]]. *)
Definition regression_features : features := [[z 1; z 0]; [z 0; z 1]; [z 1; z 1]].
Definition regression_trader : Trader :=
  fst (_recalc_predicts_hist regression_features two_term_trader).
Definition regression_returns : list float := [z 2; z 3; z 5].

(** The score scenario: combined predictions 3, -1, 0. *)
Definition score_features : features := [[z 3]; [z (-1)]; [z 0]].
Definition score_trader : Trader :=
  fst (_recalc_predicts_hist score_features (__init__ [z 1] [newest 0] 0)).
Definition score_returns : list float := [z 1; z (-1); z 2].

(** A stand-in for the regression routine in closed examples. *)
Definition no_fit (y : list float) (X : np.ndarray) : result (list float) :=
  Raise LinAlgError.

(** The two histories hold one agent-level entry per [n_terms] per-formula
    entries, whatever the shape of the per-formula array. *)
Definition flat_coindexed (s : Trader) : Prop :=
  length (np.ravel (_pred_hist_formulas s)) = length (_pred_hist s) * n_terms s.

(** The masked sum [_update_score] stores when the return array is as long
    as the prediction history. *)
Definition masked_score (h rets : list float) : float :=
  np.sum (np.select (np.map2 fmul (np.sign h) rets) (np.invert (np.isnan h))).

(** * Properties *)

(** ** Arrays of undefined markers *)

Lemma nan_array n : np.scale1 (np.zeros n) nan = repeat NaN n.
Proof.
  unfold np.scale1, np.zeros. induction n as [|n IH]; simpl; [reflexivity|].
  now rewrite IH.
Qed.

Lemma nan_matrix r c :
  np.scale (np.zeros2 r c) nan = np.Arr2 c (repeat (repeat NaN c) r).
Proof.
  unfold np.zeros2. simpl. f_equal.
  induction r as [|r IH]; simpl; [reflexivity|].
  now rewrite IH, nan_array.
Qed.

Lemma Forall_repeat {A} (P : A -> Prop) x n : P x -> Forall P (repeat x n).
Proof. intros Hx. induction n; simpl; constructor; assumption. Qed.

Lemma nth_error_repeat_lt {A} (x : A) n t :
  t < n -> nth_error (repeat x n) t = Some x.
Proof.
  revert t. induction n as [|n IH]; intros [|t] Ht; simpl; try lia; [reflexivity|].
  apply IH. lia.
Qed.

(** ** Construction *)

(** C10: right after [Trader(weights, formulas, max_lag)] the agent-level
    history has exactly [max_lag] entries, all undefined; the per-formula
    matrix has exactly [max_lag] rows of width [n_terms], all undefined; the
    score is 0; the history is empty only when [max_lag] is 0. *)
Theorem init_histories_undefined (ws : list float) (fs : list Formula.t)
    (ml : nat) :
  let self := __init__ ws fs ml in
  n_terms self = length fs /\
  length (_pred_hist self) = ml /\
  Forall (fun x => isnan x = true) (_pred_hist self) /\
  (exists rows,
      _pred_hist_formulas self = np.Arr2 (n_terms self) rows /\
      length rows = ml /\
      Forall (fun r => length r = n_terms self /\
                       Forall (fun x => isnan x = true) r) rows) /\
  score self = Num 0 /\
  (_pred_hist self = [] <-> ml = 0).
Proof.
  cbn zeta. unfold __init__. cbn [n_terms _pred_hist _pred_hist_formulas score].
  rewrite nan_array, nan_matrix.
  split; [reflexivity|].
  split; [apply repeat_length|].
  split; [apply Forall_repeat; reflexivity|].
  split.
  - exists (repeat (repeat NaN (length fs)) ml).
    split; [reflexivity|]. split; [apply repeat_length|].
    apply Forall_repeat. split; [apply repeat_length|].
    apply Forall_repeat. reflexivity.
  - split; [reflexivity|].
    destruct ml; simpl; split; congruence.
Qed.

(** ** Linearity of the combined prediction *)

Lemma comprehension_ok {A B} (f : A -> result B) (g : A -> B) l :
  (forall x, In x l -> f x = Ok (g x)) ->
  comprehension f l = Ok (map g l).
Proof.
  induction l as [|x l IH]; intros Hf; simpl; [reflexivity|].
  rewrite (Hf x (or_introl eq_refl)). simpl.
  rewrite IH; [reflexivity|].
  intros y Hy. apply Hf. now right.
Qed.

Lemma getitem_nth {A} (l : list A) j d :
  j < length l -> getitem l j = Ok (nth j l d).
Proof.
  intros Hj. unfold getitem.
  rewrite (nth_error_nth' l d Hj). reflexivity.
Qed.

Lemma map_seq_nth {A} (l : list A) d :
  map (fun j => nth j l d) (seq 0 (length l)) = l.
Proof.
  induction l as [|x l IH]; simpl; [reflexivity|].
  f_equal. rewrite <- seq_shift, map_map. exact IH.
Qed.

Lemma map_seq_nth2 {A B C} (F : A -> B -> C) (la : list A) da :
  forall (lb : list B) db,
  length la = length lb ->
  map (fun j => F (nth j la da) (nth j lb db)) (seq 0 (length lb))
  = map (fun p => F (fst p) (snd p)) (List.combine la lb).
Proof.
  induction la as [|a la IH]; intros [|b lb] db Hlen; simpl in *;
    try discriminate; [reflexivity|].
  f_equal. rewrite <- seq_shift, map_map. apply IH. lia.
Qed.

Lemma map2_combine {B} (f : float -> float -> float) (g : B -> float) a :
  forall b,
  np.map2 f a (map g b)
  = map (fun p => f (fst p) (g (snd p))) (List.combine a b).
Proof.
  induction a as [|x a IH]; intros [|y b]; simpl; try reflexivity.
  now rewrite IH.
Qed.

(** With [n_terms] formulas the per-formula comprehension never raises. *)
Lemma formula_comprehension (self : Trader) (H : features) :
  n_terms self = length (formulas self) ->
  comprehension
    (fun j => let? f := getitem (formulas self) j in Ok (Formula.predict f H))
    (range 0 (n_terms self))
  = Ok (formula_row self H).
Proof.
  intros Hn. unfold range, formula_row. rewrite Nat.sub_0_r, Hn.
  rewrite (comprehension_ok _
             (fun j => Formula.predict (nth j (formulas self) undefined_formula) H)).
  - f_equal.
    transitivity
      (map (fun f => Formula.predict f H)
         (map (fun j => nth j (formulas self) undefined_formula)
            (seq 0 (length (formulas self))))).
    + now rewrite map_map.
    + now rewrite map_seq_nth.
  - intros j Hj. apply in_seq in Hj.
    rewrite (getitem_nth _ _ undefined_formula) by lia. reflexivity.
Qed.

Lemma predict_with_formula_ok (self : Trader) (H : features) :
  n_terms self = length (formulas self) ->
  length (weights self) = length (formulas self) ->
  _predict_with_formula self H
  = Ok (combined self H, np.reshape_row (formula_row self H)).
Proof.
  intros Hn Hw. unfold _predict_with_formula.
  rewrite formula_comprehension by assumption. simpl.
  unfold np.multiply, formula_row. rewrite length_map, Hw, Nat.eqb_refl.
  reflexivity.
Qed.


Lemma weighted_terms_map2 (ws : list float) (fs : list Formula.t) H :
  np.map2 fmul ws (map (fun f => Formula.predict f H) fs)
  = weighted_terms ws fs H.
Proof.
  revert fs. induction ws as [|w ws IH]; intros [|f fs]; simpl; try reflexivity.
  now rewrite IH.
Qed.

(** The comprehension of [predict] yields the weighted terms, in order. *)
Lemma predict_terms (self : Trader) (H : features) :
  n_terms self = length (formulas self) ->
  length (weights self) = length (formulas self) ->
  predict self H = Ok (py_sum (weighted_terms (weights self) (formulas self) H)).
Proof.
  intros Hn Hw. unfold predict, range. rewrite Nat.sub_0_r, Hn.
  rewrite (comprehension_ok _
             (fun j => fmul (nth j (weights self) NaN)
                         (Formula.predict
                            (nth j (formulas self) undefined_formula) H))).
  - simpl. do 2 f_equal.
    rewrite (map_seq_nth2 (fun w f => fmul w (Formula.predict f H))) by assumption.
    rewrite <- weighted_terms_map2.
    symmetry. apply (map2_combine fmul (fun f => Formula.predict f H)).
  - intros j Hj. apply in_seq in Hj.
    rewrite (getitem_nth _ _ NaN) by lia.
    rewrite (getitem_nth _ _ undefined_formula) by lia. reflexivity.
Qed.

(** The product array of [_predict_with_formula] holds the same terms. *)
Lemma predict_with_formula_terms (self : Trader) (H : features) :
  n_terms self = length (formulas self) ->
  length (weights self) = length (formulas self) ->
  _predict_with_formula self H
  = Ok (np.sum (weighted_terms (weights self) (formulas self) H),
        np.Arr2 (n_terms self)
          [map (fun f => Formula.predict f H) (formulas self)]).
Proof.
  intros Hn Hw. unfold _predict_with_formula.
  rewrite formula_comprehension by assumption. simpl.
  unfold np.multiply, formula_row. rewrite length_map, Hw, Nat.eqb_refl.
  rewrite weighted_terms_map2.
  unfold np.reshape_row. now rewrite length_map, Hn.
Qed.

(** C7: with one weight per formula, the combined prediction is the sum of
    the terms [weight_i * formula_i.predict(H)] over all formulas [i], in
    formula order: [predict] returns Python's [sum] of exactly these terms,
    and [_predict_with_formula] returns [np.sum] of exactly these terms,
    beside the row of the formulas' predictions.  (Each method adds the
    terms with its own summation routine; no rounding is modelled, so the
    theorem does not relate the two sums to each other.) *)
Theorem combined_predict_linear (self : Trader) (H : features) :
  n_terms self = length (formulas self) ->
  length (weights self) = length (formulas self) ->
  predict self H
  = Ok (py_sum (weighted_terms (weights self) (formulas self) H)) /\
  _predict_with_formula self H
  = Ok (np.sum (weighted_terms (weights self) (formulas self) H),
        np.Arr2 (n_terms self)
          [map (fun f => Formula.predict f H) (formulas self)]).
Proof.
  intros Hn Hw. split.
  - now apply predict_terms.
  - now apply predict_with_formula_terms.
Qed.

Lemma combined_predict_linear_witness :
  n_terms (set_weights [z 2; z 3] two_term_trader)
  = length (formulas (set_weights [z 2; z 3] two_term_trader)) /\
  length (weights (set_weights [z 2; z 3] two_term_trader))
  = length (formulas (set_weights [z 2; z 3] two_term_trader)) /\
  weighted_terms [z 2; z 3] [newest 0; newest 1] [[z 5; z 7]] = [z 10; z 21] /\
  predict (set_weights [z 2; z 3] two_term_trader) [[z 5; z 7]] = Ok (z 31) /\
  _predict_with_formula (set_weights [z 2; z 3] two_term_trader) [[z 5; z 7]]
  = Ok (z 31, np.Arr2 2 [[z 5; z 7]]).
Proof.
  split; [reflexivity|]. split; [reflexivity|]. split; [reflexivity|].
  destruct (combined_predict_linear (set_weights [z 2; z 3] two_term_trader)
              [[z 5; z 7]] eq_refl eq_refl) as [Hp Hf].
  split; [rewrite Hp | rewrite Hf]; reflexivity.
Defined.

(** ** Item assignment *)

Lemma set_nth_updated {A} (l : list A) : forall t v,
  t < length l -> exists l', np.set_nth l t v = Ok l' /\ updated l l' t v.
Proof.
  induction l as [|x l IH]; intros t v Ht; simpl in Ht; [lia|].
  destruct t as [|t]; simpl.
  - exists (v :: l). split; [reflexivity|]. split; [reflexivity|].
    intros [|j]; reflexivity.
  - destruct (IH t v) as [l' [E [Hlen Hnth]]]; [lia|].
    rewrite E. simpl. exists (x :: l'). split; [reflexivity|].
    split; [simpl; now rewrite Hlen|].
    intros [|j]; simpl; [reflexivity|]. apply Hnth.
Qed.

Lemma broadcast_own_row (r : list float) :
  np.broadcast_row (length r) (np.reshape_row r) = Ok r.
Proof.
  unfold np.broadcast_row, np.reshape_row. simpl. rewrite app_nil_r.
  destruct r as [|x [|y r]]; simpl; try reflexivity.
  now rewrite Nat.eqb_refl.
Qed.

Lemma setitem_row (n : nat) (rows : list (list float)) t (r : list float) :
  length r = n -> t < length rows ->
  exists rows',
    np.setitem (np.Arr2 n rows) t (np.reshape_row r) = Ok (np.Arr2 n rows') /\
    updated rows rows' t r.
Proof.
  intros Hr Ht. unfold np.setitem.
  apply Nat.ltb_lt in Ht as Hb. rewrite Hb. subst n.
  rewrite broadcast_own_row. simpl.
  destruct (set_nth_updated rows t r Ht) as [rows' [E U]].
  rewrite E. simpl. now exists rows'.
Qed.

(** ** The recompute loop *)

Lemma same_config_refl s : same_config s s.
Proof. repeat split. Qed.

Lemma same_config_trans s1 s2 s3 :
  same_config s1 s2 -> same_config s2 s3 -> same_config s1 s3.
Proof.
  unfold same_config. intros (A1 & A2 & A3 & A4 & A5) (B1 & B2 & B3 & B4 & B5).
  repeat split; congruence.
Qed.

Lemma combined_config s s' H :
  same_config s s' -> combined s' H = combined s H.
Proof.
  intros (_ & Hw & Hf & _). unfold combined, formula_row. now rewrite Hw, Hf.
Qed.

Lemma formula_row_config s s' H :
  same_config s s' -> formula_row s' H = formula_row s H.
Proof. intros (_ & _ & Hf & _). unfold formula_row. now rewrite Hf. Qed.

Lemma formula_row_length s H : length (formula_row s H) = length (formulas s).
Proof. unfold formula_row. apply length_map. Qed.

Lemma aligned_config s s' : same_config s s' -> aligned s -> aligned s'.
Proof.
  intros (Hn & Hw & Hf & _) [A1 A2]. unfold aligned. now rewrite Hn, Hw, Hf.
Qed.

(** One pass writes position [t] of both histories and nothing else. *)
Lemma recalc_step_ok (H : features) (t : nat) (s : Trader) rows :
  aligned s ->
  _pred_hist_formulas s = np.Arr2 (n_terms s) rows ->
  t < length (_pred_hist s) -> t < length rows ->
  exists s' rows',
    recalc_step H t s = (s', Ok tt) /\ same_config s s' /\
    updated (_pred_hist s) (_pred_hist s') t (combined s (firstn (t + 1) H)) /\
    _pred_hist_formulas s' = np.Arr2 (n_terms s) rows' /\
    updated rows rows' t (formula_row s (firstn (t + 1) H)).
Proof.
  intros [Hn Hw] Hm Hth Htr.
  unfold recalc_step, bind, this, lift, read, assign.
  rewrite predict_with_formula_ok by assumption.
  destruct (set_nth_updated (_pred_hist s) t (combined s (firstn (t + 1) H)) Hth)
    as [h' [Eh Uh]].
  rewrite Eh. cbn [_pred_hist_formulas set__pred_hist]. rewrite Hm.
  destruct (setitem_row (n_terms s) rows t (formula_row s (firstn (t + 1) H)))
    as [rows' [Er Ur]]; [rewrite formula_row_length; congruence | assumption |].
  rewrite Er.
  eexists. exists rows'. split; [reflexivity|].
  split; [repeat split|]. split; [exact Uh|]. split; [reflexivity | exact Ur].
Qed.

(** Closes [if in_range (S k) m t then a else if t =? k then b else c
    = if (t =? k) || in_range (S k) m t then ...] where [a] and [b] agree
    at [t = k]. *)
Ltac merge_ranges k m t :=
  destruct (in_range (S k) m t);
  [ now rewrite orb_true_r
  | rewrite orb_false_r;
    let E := fresh "E" in
    destruct (t =? k) eqn:E;
    [ apply Nat.eqb_eq in E; now subst t | reflexivity ] ].

Lemma recalc_loop_ok (H : features) (m : nat) : forall (k : nat) (s : Trader) rows,
  aligned s ->
  _pred_hist_formulas s = np.Arr2 (n_terms s) rows ->
  (0 < m -> k + m <= length (_pred_hist s)) ->
  (0 < m -> k + m <= length rows) ->
  exists s' rows',
    for_each (seq k m) (recalc_step H) s = (s', Ok tt) /\ same_config s s' /\
    length (_pred_hist s') = length (_pred_hist s) /\
    (forall t, nth_error (_pred_hist s') t
               = if in_range k m t then Some (combined s (firstn (t + 1) H))
                 else nth_error (_pred_hist s) t) /\
    _pred_hist_formulas s' = np.Arr2 (n_terms s) rows' /\
    length rows' = length rows /\
    (forall t, nth_error rows' t
               = if in_range k m t then Some (formula_row s (firstn (t + 1) H))
                 else nth_error rows t).
Proof.
  induction m as [|m IH]; intros k s rows Hal Hm Hh Hr.
  - exists s, rows. simpl. unfold ret.
    split; [reflexivity|]. split; [apply same_config_refl|].
    split; [reflexivity|].
    assert (Hno : forall t, in_range k 0 t = false).
    { intros t. unfold in_range.
      destruct (Nat.leb_spec k t), (Nat.ltb_spec t (k + 0)); simpl; try reflexivity; lia. }
    split; [intros t; now rewrite Hno|].
    split; [exact Hm|]. split; [reflexivity|]. intros t; now rewrite Hno.
  - destruct (recalc_step_ok H k s rows Hal Hm) as
      (s1 & rows1 & E1 & C1 & [Lh1 Nh1] & M1 & [Lr1 Nr1]); [lia | lia |].
    assert (Hn1 : n_terms s1 = n_terms s) by apply C1.
    destruct (IH (S k) s1 rows1) as
      (s2 & rows2 & E2 & C2 & Lh2 & Nh2 & M2 & Lr2 & Nr2).
    + exact (aligned_config _ _ C1 Hal).
    + now rewrite Hn1.
    + rewrite Lh1. lia.
    + rewrite Lr1. lia.
    + exists s2, rows2. simpl. unfold bind at 1. rewrite E1, E2.
      split; [reflexivity|].
      split; [exact (same_config_trans _ _ _ C1 C2)|].
      split; [congruence|].
      assert (Hcase : forall t,
                 in_range k (S m) t = (t =? k) || in_range (S k) m t).
      { intros t. unfold in_range.
        destruct (Nat.eqb_spec t k), (Nat.leb_spec k t), (Nat.leb_spec (S k) t),
          (Nat.ltb_spec t (k + S m)), (Nat.ltb_spec t (S k + m));
          simpl; try reflexivity; lia. }
      split; [|split; [now rewrite M2, Hn1 | split; [congruence|]]].
      * intros t. rewrite Nh2, Hcase, Nh1, (combined_config _ _ _ C1).
        merge_ranges k m t.
      * intros t. rewrite Nr2, Hcase, Nr1, (formula_row_config _ _ _ C1).
        merge_ranges k m t.
Qed.

(** ** Full recompute *)

(** What [_recalc_predicts_hist] leaves behind, entry by entry. *)
Lemma recalc_ok (H : features) (s : Trader) :
  aligned s ->
  exists s' rows,
    _recalc_predicts_hist H s = (s', Ok tt) /\ same_config s s' /\
    length (_pred_hist s') = length H /\
    (forall t, nth_error (_pred_hist s') t
               = if in_range (max_lag s) (length H - max_lag s) t
                 then Some (combined s (firstn (t + 1) H))
                 else nth_error (repeat NaN (length H)) t) /\
    _pred_hist_formulas s' = np.Arr2 (n_terms s) rows /\
    length rows = length H /\
    (forall t, nth_error rows t
               = if in_range (max_lag s) (length H - max_lag s) t
                 then Some (formula_row s (firstn (t + 1) H))
                 else nth_error (repeat (repeat NaN (n_terms s)) (length H)) t).
Proof.
  intros Hal.
  unfold _recalc_predicts_hist, range, bind at 1 2 3 4, assign, read.
  cbn [n_terms max_lag set__pred_hist set__pred_hist_formulas].
  rewrite nan_array, nan_matrix.
  set (s0 := set__pred_hist_formulas _ _).
  assert (C0 : same_config s s0) by (repeat split).
  destruct (recalc_loop_ok H (length H - max_lag s) (max_lag s) s0
              (repeat (repeat NaN (n_terms s)) (length H)))
    as (s' & rows & E & C & Lh & Nh & Mr & Lr & Nr).
  - exact (aligned_config _ _ C0 Hal).
  - reflexivity.
  - subst s0. cbn [_pred_hist set__pred_hist_formulas set__pred_hist].
    rewrite repeat_length. lia.
  - rewrite repeat_length. lia.
  - exists s', rows. split; [exact E|].
    split; [exact (same_config_trans _ _ _ C0 C)|].
    split; [rewrite Lh; apply repeat_length|].
    split; [intros t; rewrite Nh; reflexivity|].
    split; [exact Mr|].
    split; [rewrite Lr; apply repeat_length|].
    intros t. rewrite Nr. reflexivity.
Qed.

Lemma in_range_below k m t : t < k -> in_range k m t = false.
Proof.
  intros Ht. unfold in_range. destruct (Nat.leb_spec k t); [lia | reflexivity].
Qed.

Lemma in_range_within k T t : k <= t < T -> in_range k (T - k) t = true.
Proof.
  intros Ht. unfold in_range.
  destruct (Nat.leb_spec k t), (Nat.ltb_spec t (k + (T - k))); simpl;
    try reflexivity; lia.
Qed.




(** The same happens with defined forecasts and a NaN weight: the formula
    row is defined, the agent-level entry is not. *)
Lemma recalc_undefined_weight :
  exists s',
    _recalc_predicts_hist [[z 1]] (__init__ [NaN] [newest 0] 0) = (s', Ok tt) /\
    _pred_hist s' = [NaN] /\
    _pred_hist_formulas s' = np.Arr2 1 [[z 1]].
Proof. eexists. split; [vm_compute; reflexivity|]. split; reflexivity. Qed.

(** ** Single-step append *)

(** What [_append_predicts] leaves behind: one more scalar in the
    agent-level history, and the per-formula history flattened to one
    dimension with the new row's entries at its end. *)
Lemma append_ok (H : features) (s : Trader) :
  aligned s ->
  exists s',
    _append_predicts H s = (s', Ok tt) /\ same_config s s' /\
    _pred_hist s' = _pred_hist s ++ [combined s H] /\
    _pred_hist_formulas s'
    = np.Arr1 (np.ravel (_pred_hist_formulas s) ++ formula_row s H).
Proof.
  intros [Hn Hw].
  unfold _append_predicts, bind, this, lift, read, assign.
  rewrite predict_with_formula_ok by assumption.
  eexists. split; [reflexivity|]. split; [repeat split|].
  split; [reflexivity|].
  cbn [_pred_hist_formulas set__pred_hist_formulas set__pred_hist].
  unfold np.append, np.reshape_row. simpl. now rewrite app_nil_r.
Qed.

Lemma concat_length_uniform {A} (rows : list (list A)) n :
  Forall (fun r => length r = n) rows ->
  length (concat rows) = length rows * n.
Proof.
  induction 1 as [|r rows Hr _ IH]; simpl; [reflexivity|].
  rewrite length_app, IH, Hr. reflexivity.
Qed.

(** After an append onto a [T x n_terms] matrix the per-formula history is
    one-dimensional with [(T + 1) * n_terms] entries, against [T + 1]
    entries of the agent-level history. *)
Lemma append_shape (H : features) (s : Trader) rows :
  aligned s ->
  _pred_hist_formulas s = np.Arr2 (n_terms s) rows ->
  Forall (fun r => length r = n_terms s) rows ->
  length (_pred_hist s) = length rows ->
  exists s',
    _append_predicts H s = (s', Ok tt) /\
    length (_pred_hist s') = length rows + 1 /\
    np.shape (_pred_hist_formulas s') = [(length rows + 1) * n_terms s].
Proof.
  intros Hal Hm Hrows Hlen.
  destruct (append_ok H s Hal) as (s' & E & _ & Eh & Em).
  exists s'. split; [exact E|]. split.
  - rewrite Eh, length_app, Hlen. reflexivity.
  - rewrite Em, Hm. simpl.
    rewrite length_app, (concat_length_uniform rows (n_terms s) Hrows).
    rewrite formula_row_length. destruct Hal as [-> _]. f_equal. lia.
Qed.

(** Construction and full recompute do keep the two histories co-indexed. *)
Lemma init_coindexed (ws : list float) (fs : list Formula.t) (ml : nat) :
  np.len (_pred_hist_formulas (__init__ ws fs ml))
  = length (_pred_hist (__init__ ws fs ml)).
Proof.
  unfold __init__. cbn [_pred_hist _pred_hist_formulas].
  rewrite nan_array, nan_matrix. simpl. now rewrite !repeat_length.
Qed.

Lemma recalc_coindexed (H : features) (s : Trader) :
  aligned s ->
  exists s',
    _recalc_predicts_hist H s = (s', Ok tt) /\
    np.ndim (_pred_hist_formulas s') = 2 /\
    np.len (_pred_hist_formulas s') = length (_pred_hist s').
Proof.
  intros Hal.
  destruct (recalc_ok H s Hal) as (s' & rows & E & _ & Lh & _ & Mr & Lr & _).
  exists s'. split; [exact E|]. rewrite Mr. simpl. split; [reflexivity|].
  congruence.
Qed.

Lemma nth_error_last_app {A} (l : list A) x :
  nth_error (l ++ [x]) (length (l ++ [x]) - 1) = Some x.
Proof.
  rewrite length_app. simpl.
  replace (length l + 1 - 1) with (length l) by lia.
  rewrite nth_error_app2 by lia. now rewrite Nat.sub_diag.
Qed.

Lemma firstn_whole {A} (l : list A) : firstn (length l - 1 + 1) l = l.
Proof. apply firstn_all2. lia. Qed.

(** Recompute over [H] against recompute over [H[:-1]] followed by an
    append of [H], for any aligned trader and [len(H) > max_lag]: the final
    agent-level entries agree; the full recompute ends with the row of
    formula predictions, the append leaves a flat array whose final entry
    is a single scalar. *)
Lemma recompute_then_append (self : Trader) (H : features) :
  aligned self ->
  max_lag self < length H ->
  exists full part incr,
    _recalc_predicts_hist H self = (full, Ok tt) /\
    _recalc_predicts_hist (removelast H) self = (part, Ok tt) /\
    _append_predicts H part = (incr, Ok tt) /\
    np.last (np.Arr1 (_pred_hist full)) = Ok (np.Scalar (combined self H)) /\
    np.last (np.Arr1 (_pred_hist incr)) = Ok (np.Scalar (combined self H)) /\
    np.last (_pred_hist_formulas full) = Ok (np.Row (formula_row self H)) /\
    _pred_hist_formulas incr
    = np.Arr1 (np.ravel (_pred_hist_formulas part) ++ formula_row self H).
Proof.
  intros Hal Hlag.
  destruct (recalc_ok H self Hal) as (full & rows & E1 & _ & Lh & Nh & Mr & Lr & Nr).
  destruct (recalc_ok (removelast H) self Hal) as (part & rows2 & E2 & C2 & _).
  destruct (append_ok H part (aligned_config _ _ C2 Hal)) as (incr & E3 & _ & Eh & Em).
  exists full, part, incr.
  split; [exact E1|]. split; [exact E2|]. split; [exact E3|].
  assert (Hin : in_range (max_lag self) (length H - max_lag self) (length H - 1) = true)
    by (apply in_range_within; lia).
  split; [|split; [|split]].
  - simpl. rewrite Lh, Nh, Hin, firstn_whole. reflexivity.
  - simpl. rewrite Eh, nth_error_last_app, (combined_config _ _ _ C2). reflexivity.
  - rewrite Mr. simpl. rewrite Lr, Nr, Hin, firstn_whole. reflexivity.
  - rewrite Em, (formula_row_config _ _ _ C2). reflexivity.
Qed.

(** C2, evaluated where the code departs from it: appending the third
    observation to a two-formula trader whose histories hold two steps
    leaves three agent-level entries but a one-dimensional per-formula
    array of six entries; no third row of two predictions is added. *)
Theorem append_breaks_coindexing :
  exists part incr,
    _recalc_predicts_hist (removelast regression_features) two_term_trader
    = (part, Ok tt) /\
    np.shape (_pred_hist_formulas part) = [2; 2] /\
    length (_pred_hist part) = 2 /\
    _append_predicts regression_features part = (incr, Ok tt) /\
    length (_pred_hist incr) = 3 /\
    _pred_hist_formulas incr = np.Arr1 [z 1; z 0; z 0; z 1; z 1; z 1] /\
    np.shape (_pred_hist_formulas incr) = [6] /\
    np.len (_pred_hist_formulas incr) <> length (_pred_hist incr).
Proof.
  eexists. eexists.
  split; [vm_compute; reflexivity|].
  split; [reflexivity|]. split; [reflexivity|].
  split; [vm_compute; reflexivity|].
  split; [reflexivity|]. split; [reflexivity|]. split; [reflexivity|].
  simpl. lia.
Qed.

(** C1, evaluated where the code departs from it: over the three-step
    history the full recompute and the recompute-then-append agree on the
    final agent-level prediction, but the final entry of the per-formula
    history is the row [1, 1] after the full recompute and the single
    scalar 1 after the append. *)
Theorem append_final_row_differs :
  exists full part incr,
    _recalc_predicts_hist regression_features two_term_trader = (full, Ok tt) /\
    _recalc_predicts_hist (removelast regression_features) two_term_trader
    = (part, Ok tt) /\
    _append_predicts regression_features part = (incr, Ok tt) /\
    np.last (np.Arr1 (_pred_hist full)) = Ok (np.Scalar (z 2)) /\
    np.last (np.Arr1 (_pred_hist incr)) = Ok (np.Scalar (z 2)) /\
    np.last (_pred_hist_formulas full) = Ok (np.Row [z 1; z 1]) /\
    np.last (_pred_hist_formulas incr) = Ok (np.Scalar (z 1)) /\
    np.last (_pred_hist_formulas full) <> np.last (_pred_hist_formulas incr).
Proof.
  eexists. eexists. eexists.
  split; [vm_compute; reflexivity|].
  split; [vm_compute; reflexivity|].
  split; [vm_compute; reflexivity|].
  repeat (split; [reflexivity|]).
  simpl. discriminate.
Qed.

(** ** Score *)

Lemma map2_length (f : float -> float -> float) a : forall b,
  length a = length b -> length (np.map2 f a b) = length a.
Proof.
  induction a as [|x a IH]; intros [|y b] Hlen; simpl in *; try discriminate;
    [reflexivity|].
  f_equal. apply IH. lia.
Qed.

Lemma fsign_zero (q : Q) : (q == 0)%Q -> fsign (Num q) = Num 0.
Proof.
  intros Hq. unfold Qeq in Hq. simpl in Hq.
  assert (Hn : Qnum q = 0%Z) by lia.
  unfold fsign. rewrite Hn. reflexivity.
Qed.

Lemma masked_terms (h : list float) : forall rets,
  np.select (np.map2 fmul (np.sign h) rets) (np.invert (np.isnan h))
  = score_terms h rets.
Proof.
  induction h as [|p h IH]; intros [|r rets]; simpl; try reflexivity.
  destruct (isnan p); simpl; now rewrite IH.
Qed.

Lemma update_score_terms (self : Trader) (return_arr : list float) :
  length return_arr = length (_pred_hist self) ->
  _update_score return_arr "default" self
  = (set_score (np.sum (score_terms (_pred_hist self) return_arr)) self, Ok tt).
Proof.
  intros Hlen.
  unfold _update_score. cbn [String.eqb Ascii.eqb Bool.eqb].
  unfold bind, read, lift, assign, np.multiply, np.mask1.
  assert (Hs : length (np.sign (_pred_hist self)) = length return_arr)
    by (unfold np.sign; rewrite length_map; congruence).
  rewrite Hs, Nat.eqb_refl.
  rewrite (map2_length fmul _ _ Hs), Hs.
  rewrite masked_terms.
  unfold np.invert, np.isnan. rewrite !length_map, Hlen, Nat.eqb_refl.
  reflexivity.
Qed.

(** C6: with one return per history position, [_update_score] under
    ["default"] returns and sets [score] to [np.sum] of the terms
    [sign(prediction_t) * return_t] of the positions whose prediction is
    defined, leaving the prediction history and the weights as they were;
    a zero prediction contributes zero; with predictions 3, -1, 0 and returns [1, -1, 2] the
    score becomes 2. *)
Theorem default_score_correct :
  (forall (self : Trader) (return_arr : list float),
      length return_arr = length (_pred_hist self) ->
      snd (_update_score return_arr "default" self) = Ok tt /\
      score (fst (_update_score return_arr "default" self))
      = np.sum (score_terms (_pred_hist self) return_arr) /\
      _pred_hist (fst (_update_score return_arr "default" self))
      = _pred_hist self /\
      weights (fst (_update_score return_arr "default" self)) = weights self) /\
  (forall q r : Q, (q == 0)%Q -> fmul (fsign (Num q)) (Num r) =f= Num 0) /\
  (_pred_hist score_trader = [z 3; z (-1); z 0] /\
   score score_trader = Num 0 /\
   score_terms (_pred_hist score_trader) score_returns = [z 1; z 1; z 0] /\
   snd (_update_score score_returns "default" score_trader) = Ok tt /\
   score (fst (_update_score score_returns "default" score_trader)) = z 2).
Proof.
  split; [|split].
  - intros self return_arr Hlen.
    rewrite (update_score_terms self return_arr Hlen).
    repeat split.
  - intros q r Hq. rewrite (fsign_zero q Hq). simpl. apply Qmult_0_l.
  - repeat split.
Qed.

Lemma default_score_correct_witness :
  length [z 5; z 7; z 11] = length (_pred_hist (set__pred_hist [z 2; z (-3); z 0]
                                                   (set_score (z 9) score_trader))) /\
  score (set__pred_hist [z 2; z (-3); z 0] (set_score (z 9) score_trader)) = z 9 /\
  score (fst (_update_score [z 5; z 7; z 11] "default"
                (set__pred_hist [z 2; z (-3); z 0] (set_score (z 9) score_trader))))
  = z (-2).
Proof.
  split; [reflexivity|]. split; [reflexivity|].
  destruct (proj1 default_score_correct
              (set__pred_hist [z 2; z (-3); z 0] (set_score (z 9) score_trader))
              [z 5; z 7; z 11] eq_refl) as (_ & Hs & _).
  rewrite Hs. reflexivity.
Defined.

(** C8: any evaluation method other than ["default"] raises
    [NotImplementedError] and leaves the trader, its score included, as it
    was; the default score is not computed instead. *)
Theorem unknown_method_raises (self : Trader) (return_arr : list float)
    (eval_method : string) :
  eval_method <> "default" ->
  _update_score return_arr eval_method self
  = (self, Raise (NotImplementedError ("unknown eval_method : " ++ eval_method))).
Proof.
  intros Hne. unfold _update_score.
  apply String.eqb_neq in Hne. rewrite Hne. reflexivity.
Qed.

Lemma unknown_method_raises_witness :
  "sharpe" <> "default" /\
  _update_score score_returns "sharpe" score_trader
  = (score_trader, Raise (NotImplementedError "unknown eval_method : sharpe")) /\
  score (fst (_update_score score_returns "sharpe" score_trader)) = Num 0 /\
  score (fst (_update_score score_returns "default" score_trader)) = z 2.
Proof.
  split; [discriminate|].
  split; [apply (unknown_method_raises score_trader score_returns "sharpe");
          discriminate|].
  split; reflexivity.
Defined.

(** ** Weight recalibration *)

(** The first statement of [_update_weights] reads an attribute that no
    trader has, so the call raises there whatever the regression routine. *)
Lemma update_weights_raises
    (OLS_fit_params : list float -> np.ndarray -> result (list float))
    (self : Trader) (return_arr : list float) :
  _update_weights OLS_fit_params return_arr self
  = (self, Raise (AttributeError "_preds_hist")).
Proof. reflexivity. Qed.

(** C4, evaluated where the code departs from it: with per-formula history
    [[1,0],[0,1],[1,1]] and returns [2,3,5], [_update_weights] raises
    [AttributeError] before any regression and the weights stay [1, 1]
    instead of becoming [2, 3]. *)
Theorem update_weights_never_fits
    (OLS_fit_params : list float -> np.ndarray -> result (list float)) :
  _pred_hist_formulas regression_trader
  = np.Arr2 2 [[z 1; z 0]; [z 0; z 1]; [z 1; z 1]] /\
  _update_weights OLS_fit_params regression_returns regression_trader
  = (regression_trader, Raise (AttributeError "_preds_hist")) /\
  weights (fst (_update_weights OLS_fit_params regression_returns
                  regression_trader)) = [z 1; z 1] /\
  weights (fst (_update_weights OLS_fit_params regression_returns
                  regression_trader)) <> [z 2; z 3].
Proof.
  split; [reflexivity|]. split; [reflexivity|]. split; [reflexivity|].
  simpl. discriminate.
Qed.

(** C5: when [_update_weights] raises, the trader it leaves behind has the
    weight vector it had before the call. *)
Theorem update_weights_failure_keeps_weights
    (OLS_fit_params : list float -> np.ndarray -> result (list float))
    (self self' : Trader) (return_arr : list float) (e : exn) :
  _update_weights OLS_fit_params return_arr self = (self', Raise e) ->
  weights self' = weights self.
Proof.
  unfold _update_weights, bind, this, lift, read, assign.
  destruct (getattr self "_preds_hist") as [v|e1];
    [|intros E; injection E as <- _; reflexivity].
  destruct (as_array1 v) as [h|e2];
    [|intros E; injection E as <- _; reflexivity].
  destruct (np.mask1 return_arr _) as [y|e3];
    [|intros E; injection E as <- _; reflexivity].
  destruct (np.mask (_pred_hist_formulas self) _) as [X|e4];
    [|intros E; injection E as <- _; reflexivity].
  destruct (OLS_fit_params y X) as [w|e5];
    [|intros E; injection E as <- _; reflexivity].
  intros E. discriminate E.
Qed.

Lemma update_weights_failure_keeps_weights_witness :
  _update_weights no_fit regression_returns regression_trader
  = (regression_trader, Raise (AttributeError "_preds_hist")) /\
  weights regression_trader = [z 1; z 1].
Proof.
  split; [reflexivity|].
  exact (update_weights_failure_keeps_weights no_fit regression_trader
           regression_trader regression_returns (AttributeError "_preds_hist")
           eq_refl).
Defined.

(** ** Numerical export *)

(** C9, evaluated where the code departs from it: [_to_numerial_repr]
    reads the attribute [n_temrs], which no trader has, and raises
    [AttributeError] instead of returning the pair of the formula count
    and the formulas' representations. *)
Theorem to_numerial_repr_raises (self : Trader) :
  _to_numerial_repr self = Raise (AttributeError "n_temrs") /\
  _to_numerial_repr two_term_trader
  <> Ok (length (formulas two_term_trader),
         map Formula.to_numerical_repr (formulas two_term_trader)).
Proof. split; [reflexivity | discriminate]. Qed.

(** * Further properties of the methods *)

(** ** Score: what it depends on *)

Lemma update_score_aligned (self : Trader) (return_arr : list float) :
  length return_arr = length (_pred_hist self) ->
  _update_score return_arr "default" self
  = (set_score (masked_score (_pred_hist self) return_arr) self, Ok tt).
Proof.
  intros Hlen.
  unfold _update_score. cbn [String.eqb Ascii.eqb Bool.eqb].
  unfold bind, read, lift, assign, np.multiply, np.mask1.
  assert (Hs : length (np.sign (_pred_hist self)) = length return_arr)
    by (unfold np.sign; rewrite length_map; congruence).
  rewrite Hs, Nat.eqb_refl.
  rewrite (map2_length fmul _ _ Hs), Hs.
  unfold np.invert, np.isnan. rewrite !length_map, Hlen, Nat.eqb_refl.
  reflexivity.
Qed.

Lemma fsign_scale (p : float) (c : Q) :
  (0 < c)%Q -> fsign (fmul p (Num c)) = fsign p.
Proof.
  intros Hc. destruct p as [|a]; simpl; [reflexivity|].
  unfold Qlt in Hc. simpl in Hc.
  rewrite Z.sgn_mul.
  assert (Hs : Z.sgn (Qnum c) = 1%Z) by (apply Z.sgn_pos; lia).
  now rewrite Hs, Z.mul_1_r.
Qed.

Lemma sign_scale (h : list float) (c : Q) :
  (0 < c)%Q -> np.sign (np.scale1 h (Num c)) = np.sign h.
Proof.
  intros Hc. unfold np.sign, np.scale1. rewrite map_map.
  apply map_ext. intros p. now apply fsign_scale.
Qed.

Lemma isnan_scale (h : list float) (c : Q) :
  np.isnan (np.scale1 h (Num c)) = np.isnan h.
Proof.
  unfold np.isnan, np.scale1. rewrite map_map.
  apply map_ext. intros [|a]; reflexivity.
Qed.

(** X1: multiplying the whole prediction history by a positive number
    changes neither the outcome of the default evaluation nor the score it
    stores: only the signs of the predictions count. *)
Theorem score_depends_on_signs_only (self : Trader) (return_arr : list float)
    (c : Q) :
  (0 < c)%Q ->
  snd (_update_score return_arr "default"
         (set__pred_hist (np.scale1 (_pred_hist self) (Num c)) self))
  = snd (_update_score return_arr "default" self) /\
  score (fst (_update_score return_arr "default"
                (set__pred_hist (np.scale1 (_pred_hist self) (Num c)) self)))
  = score (fst (_update_score return_arr "default" self)).
Proof.
  intros Hc.
  unfold _update_score. cbn [String.eqb Ascii.eqb Bool.eqb].
  unfold bind, read, lift, assign. cbn [_pred_hist set__pred_hist].
  rewrite (sign_scale _ _ Hc), isnan_scale.
  destruct (np.multiply (np.sign (_pred_hist self)) return_arr) as [prod|e];
    [|split; reflexivity].
  destruct (np.mask1 prod (np.invert (np.isnan (_pred_hist self)))) as [sel|e];
    split; reflexivity.
Qed.

Lemma score_depends_on_signs_only_witness :
  (0 < 5 # 2)%Q /\
  score (fst (_update_score score_returns "default"
                (set__pred_hist (np.scale1 (_pred_hist score_trader) (Num (5 # 2)))
                   score_trader))) = z 2.
Proof.
  split; [reflexivity|].
  rewrite (proj2 (score_depends_on_signs_only score_trader score_returns (5 # 2)
                    eq_refl)).
  reflexivity.
Defined.

(** X2: [_update_score] assigns nothing but [score]: when it returns, the
    trader differs from the one before at most in its score; when it
    raises, the trader is the one before. *)
Theorem update_score_touches_only_score (self self' : Trader)
    (return_arr : list float) (eval_method : string) (res : result unit) :
  _update_score return_arr eval_method self = (self', res) ->
  match res with
  | Ok _ => exists v, self' = set_score v self
  | Raise _ => self' = self
  end.
Proof.
  unfold _update_score, bind, read, lift, assign, raise.
  destruct (String.eqb eval_method "default").
  - destruct (np.multiply _ return_arr) as [prod|e].
    + destruct (np.mask1 prod _) as [sel|e];
        intros E; injection E as <- <-; [eexists|]; reflexivity.
    + intros E; injection E as <- <-; reflexivity.
  - intros E; injection E as <- <-; reflexivity.
Qed.

Lemma update_score_touches_only_score_witness :
  exists v, fst (_update_score score_returns "default" score_trader)
            = set_score v score_trader.
Proof.
  exact (update_score_touches_only_score score_trader _ score_returns "default"
           (Ok tt) eq_refl).
Defined.

Lemma select_all_undefined {A} (h : list float) : forall (a : list A),
  Forall (fun x => isnan x = true) h ->
  np.select a (np.invert (np.isnan h)) = [].
Proof.
  induction h as [|p h IH]; intros [|x a] Hh; simpl; try reflexivity.
  inversion Hh as [|? ? Hp Hrest]; subst. rewrite Hp. simpl. now apply IH.
Qed.

(** X3: over a history that holds only undefined markers, as right after
    construction, the default evaluation returns and sets the score to 0,
    whatever the returns and whatever the score was. *)
Theorem score_of_undefined_history (self : Trader) (return_arr : list float) :
  length return_arr = length (_pred_hist self) ->
  Forall (fun x => isnan x = true) (_pred_hist self) ->
  snd (_update_score return_arr "default" self) = Ok tt /\
  score (fst (_update_score return_arr "default" self)) = Num 0.
Proof.
  intros Hlen Hnan. rewrite update_score_aligned by exact Hlen.
  unfold masked_score. rewrite select_all_undefined by exact Hnan.
  split; reflexivity.
Qed.

Lemma score_of_undefined_history_witness :
  score (set_score (z 9) (__init__ [z 1; z 1] [newest 0; newest 1] 2)) = z 9 /\
  score (fst (_update_score [z 7; z (-4)] "default"
                (set_score (z 9) (__init__ [z 1; z 1] [newest 0; newest 1] 2))))
  = Num 0.
Proof.
  split; [reflexivity|].
  apply score_of_undefined_history; [reflexivity|].
  repeat constructor.
Defined.

Lemma select_agree (h : list float) : forall (r r' : list float),
  length r = length r' ->
  (forall t p, nth_error h t = Some p -> defined p ->
     nth_error r t = nth_error r' t) ->
  np.select (np.map2 fmul (np.sign h) r) (np.invert (np.isnan h))
  = np.select (np.map2 fmul (np.sign h) r') (np.invert (np.isnan h)).
Proof.
  induction h as [|p h IH]; intros [|x r] [|x' r'] Hlen Hag; simpl in *;
    try discriminate; try reflexivity.
  assert (Hrest : np.select (np.map2 fmul (np.sign h) r) (np.invert (np.isnan h))
                  = np.select (np.map2 fmul (np.sign h) r') (np.invert (np.isnan h))).
  { apply IH; [lia|]. intros t q Ht Hq. exact (Hag (S t) q Ht Hq). }
  destruct (isnan p) eqn:Ep; simpl; [exact Hrest|].
  specialize (Hag 0 p eq_refl Ep). simpl in Hag. injection Hag as <-.
  now rewrite Hrest.
Qed.

(** X4: the returns at positions whose prediction is undefined, the lag
    window in particular, never reach the score: two return arrays that
    agree wherever the prediction is defined give the same result. *)
Theorem score_ignores_returns_at_undefined (self : Trader)
    (r r' : list float) :
  length r = length (_pred_hist self) ->
  length r' = length (_pred_hist self) ->
  (forall t p, nth_error (_pred_hist self) t = Some p -> defined p ->
     nth_error r t = nth_error r' t) ->
  _update_score r "default" self = _update_score r' "default" self.
Proof.
  intros Hr Hr' Hag.
  rewrite !update_score_aligned by assumption.
  unfold masked_score. rewrite (select_agree _ r r'); [reflexivity | congruence | exact Hag].
Qed.

Lemma score_ignores_returns_at_undefined_witness :
  _update_score [z 100; z 100; z 5] "default"
    (fst (_recalc_predicts_hist regression_features
            (__init__ [z 1; z 1] [newest 0; newest 1] 2)))
  = _update_score [z 0; NaN; z 5] "default"
      (fst (_recalc_predicts_hist regression_features
              (__init__ [z 1; z 1] [newest 0; newest 1] 2))).
Proof.
  apply score_ignores_returns_at_undefined; [reflexivity | reflexivity |].
  intros [|[|[|t]]] p Hp Dp; simpl in Hp; try discriminate;
    try (injection Hp as <-; discriminate Dp); reflexivity.
Defined.

Lemma fadd_nan_r x : fadd x NaN = NaN.
Proof. destruct x; reflexivity. Qed.

Lemma fold_left_fadd_nan (l : list float) : fold_left fadd l NaN = NaN.
Proof. induction l as [|x l IH]; simpl; [reflexivity | exact IH]. Qed.

Lemma np_sum_nan (l : list float) : In NaN l -> np.sum l = NaN.
Proof.
  unfold np.sum. generalize (Num 0). induction l as [|x l IH]; intros a Hin;
    simpl in *; [contradiction|].
  destruct Hin as [-> | Hin].
  - rewrite fadd_nan_r. apply fold_left_fadd_nan.
  - now apply IH.
Qed.

Lemma score_terms_nan_return (h : list float) : forall (r : list float) t p,
  nth_error h t = Some p -> defined p -> nth_error r t = Some NaN ->
  In NaN (score_terms h r).
Proof.
  induction h as [|q h IH]; intros [|x r] [|t] p Hp Dp Hr; simpl in *;
    try discriminate.
  - injection Hp as ->. injection Hr as ->. rewrite Dp. left.
    destruct p; [discriminate Dp | reflexivity].
  - specialize (IH r t p Hp Dp Hr).
    destruct (isnan q); [exact IH | now right].
Qed.

(** X5: a NaN return at a position whose prediction is defined makes the
    default evaluation set the score to NaN. *)
Theorem nan_return_poisons_score (self : Trader) (return_arr : list float)
    (t : nat) (p : float) :
  length return_arr = length (_pred_hist self) ->
  nth_error (_pred_hist self) t = Some p -> defined p ->
  nth_error return_arr t = Some NaN ->
  snd (_update_score return_arr "default" self) = Ok tt /\
  score (fst (_update_score return_arr "default" self)) = NaN.
Proof.
  intros Hlen Hp Dp Hr.
  rewrite (update_score_terms self return_arr Hlen).
  split; [reflexivity|]. cbn [fst score set_score].
  apply np_sum_nan. exact (score_terms_nan_return _ _ t p Hp Dp Hr).
Qed.

Lemma nan_return_poisons_score_witness :
  score score_trader = Num 0 /\
  score (fst (_update_score [z 1; NaN; z 2] "default" score_trader)) = NaN.
Proof.
  split; [reflexivity|].
  apply (nan_return_poisons_score score_trader [z 1; NaN; z 2] 1 (z (-1)));
    reflexivity.
Defined.

(** X6: a return array whose length is neither that of the prediction
    history nor 1 makes the default evaluation raise, without touching the
    trader: [ValueError] from the product, or [IndexError] from the mask
    when the history has a single entry that was broadcast. *)
Theorem score_length_mismatch_raises (self : Trader) (return_arr : list float) :
  length return_arr <> length (_pred_hist self) ->
  length return_arr <> 1 ->
  _update_score return_arr "default" self
  = (self, Raise (if length (_pred_hist self) =? 1 then IndexError
                  else ValueError)).
Proof.
  intros Hne H1.
  unfold _update_score. cbn [String.eqb Ascii.eqb Bool.eqb].
  unfold bind, read, lift, assign, np.multiply, np.mask1, np.sign, np.invert,
    np.isnan.
  rewrite !length_map.
  destruct (Nat.eqb_spec (length (_pred_hist self)) (length return_arr)) as [E|_];
    [congruence|].
  destruct (_pred_hist self) as [|p [|p' h]]; simpl.
  - destruct return_arr as [|x [|x' r]]; simpl in *; try reflexivity; congruence.
  - rewrite length_map.
    destruct (Nat.eqb_spec (length return_arr) 1) as [E|_]; [congruence|].
    reflexivity.
  - destruct return_arr as [|x [|x' r]]; simpl in *; try reflexivity; congruence.
Qed.

Lemma score_length_mismatch_raises_witness :
  _update_score [z 1; z 2] "default" score_trader
  = (score_trader, Raise ValueError) /\
  _update_score [z 1; z 2] "default" (set__pred_hist [z 3] score_trader)
  = (set__pred_hist [z 3] score_trader, Raise IndexError).
Proof.
  split.
  - apply (score_length_mismatch_raises score_trader [z 1; z 2]);
      simpl; discriminate.
  - apply (score_length_mismatch_raises (set__pred_hist [z 3] score_trader)
             [z 1; z 2]); simpl; discriminate.
Defined.

Lemma score_terms_snoc (h r : list float) (p x : float) :
  length r = length h ->
  score_terms (h ++ [p]) (r ++ [x])
  = score_terms h r ++ (if isnan p then [] else [fmul (fsign p) x]).
Proof.
  revert r. induction h as [|q h IH]; intros [|y r] Hlen; simpl in *;
    try discriminate.
  - destruct (isnan p); reflexivity.
  - rewrite IH by lia. destruct (isnan q); reflexivity.
Qed.

(** X7: the score accumulates one term per appended step.  After
    [_append_predicts] has added the prediction [v] for a new observation,
    evaluating with one more return [x] sums the terms summed before
    followed by the one new term [sign(v) * x], or the same terms when [v]
    is undefined; no earlier term changes. *)
Theorem score_after_append (self : Trader) (H : features)
    (return_arr : list float) (x : float) :
  aligned self ->
  length return_arr = length (_pred_hist self) ->
  exists self1 v m,
    _predict_with_formula self H = Ok (v, m) /\
    _append_predicts H self = (self1, Ok tt) /\
    score (fst (_update_score return_arr "default" self))
    = np.sum (score_terms (_pred_hist self) return_arr) /\
    snd (_update_score (return_arr ++ [x]) "default" self1) = Ok tt /\
    score (fst (_update_score (return_arr ++ [x]) "default" self1))
    = np.sum (score_terms (_pred_hist self) return_arr
              ++ (if isnan v then [] else [fmul (fsign v) x])).
Proof.
  intros Hal Hlen.
  destruct (append_ok H self Hal) as (self1 & E & _ & Eh & _).
  exists self1, (combined self H), (np.reshape_row (formula_row self H)).
  split; [apply predict_with_formula_ok; apply Hal|].
  split; [exact E|].
  rewrite (update_score_terms self return_arr Hlen).
  rewrite (update_score_terms self1 (return_arr ++ [x]))
    by (rewrite Eh, !length_app; simpl; congruence).
  rewrite Eh, score_terms_snoc by exact Hlen.
  repeat split.
Qed.

Lemma score_after_append_witness :
  exists self1,
    _append_predicts (score_features ++ [[z (-4)]]) score_trader = (self1, Ok tt) /\
    score (fst (_update_score score_returns "default" score_trader)) = z 2 /\
    score (fst (_update_score (score_returns ++ [z 3]) "default" self1)) = z (-1).
Proof.
  destruct (score_after_append score_trader (score_features ++ [[z (-4)]])
              score_returns (z 3)) as (self1 & v & m & Ep & E1 & E2 & _ & E3).
  - split; reflexivity.
  - reflexivity.
  - exists self1. split; [exact E1|]. split; [rewrite E2; reflexivity|].
    rewrite E3. vm_compute in Ep. injection Ep as <- _. reflexivity.
Defined.

(** ** Full recompute: contents, shape, edge cases *)

(** X8: after a full recompute, position [t] of both histories, for every
    step [t] from [max_lag] on, holds what [_predict_with_formula] returns
    for the window [feature_arr[:t+1]]: its combined value in the
    agent-level history, and in row [t] of the matrix the formulas'
    predictions over that window, in formula order. *)
Theorem history_holds_predictions (self : Trader) (H : features) :
  aligned self ->
  exists self' rows,
    _recalc_predicts_hist H self = (self', Ok tt) /\
    _pred_hist_formulas self' = np.Arr2 (n_terms self) rows /\
    forall t, max_lag self <= t < length H ->
      exists v,
        _predict_with_formula self (firstn (t + 1) H)
        = Ok (v, np.Arr2 (n_terms self)
                   [map (fun f => Formula.predict f (firstn (t + 1) H))
                      (formulas self)]) /\
        nth_error (_pred_hist self') t = Some v /\
        nth_error rows t
        = Some (map (fun f => Formula.predict f (firstn (t + 1) H))
                  (formulas self)).
Proof.
  intros Hal.
  destruct (recalc_ok H self Hal) as (s' & rows & E & _ & _ & Nh & Mr & _ & Nr).
  exists s', rows. split; [exact E|]. split; [exact Mr|].
  intros t Ht.
  exists (np.sum (weighted_terms (weights self) (formulas self) (firstn (t + 1) H))).
  split; [apply predict_with_formula_terms; apply Hal|].
  rewrite Nh, Nr, in_range_within by exact Ht.
  unfold combined, formula_row. rewrite weighted_terms_map2. split; reflexivity.
Qed.

Lemma history_holds_predictions_witness :
  exists self' rows,
    _recalc_predicts_hist regression_features
      (set_weights [z 2; z 3] two_term_trader) = (self', Ok tt) /\
    _pred_hist_formulas self' = np.Arr2 2 rows /\
    _predict_with_formula (set_weights [z 2; z 3] two_term_trader)
      (firstn 2 regression_features) = Ok (z 3, np.Arr2 2 [[z 0; z 1]]) /\
    nth_error (_pred_hist self') 1 = Some (z 3) /\
    nth_error rows 1 = Some [z 0; z 1].
Proof.
  destruct (history_holds_predictions (set_weights [z 2; z 3] two_term_trader)
              regression_features)
    as (s' & rows & E & Mr & Hv); [split; reflexivity|].
  exists s', rows. split; [exact E|]. split; [exact Mr|].
  destruct (Hv 1) as (v & Hp & Hh & Hr); [simpl; lia|].
  split; [reflexivity|].
  vm_compute in Hp. injection Hp as <-.
  split; [exact Hh | exact Hr].
Defined.

Lemma nth_error_repeat_inv {A} (x y : A) n t :
  nth_error (repeat x n) t = Some y -> y = x.
Proof. intros Hn. apply nth_error_In in Hn. exact (repeat_spec _ _ _ Hn). Qed.

Lemma rows_width (n k m T : nat) (g : nat -> list float)
    (rows : list (list float)) :
  (forall t, length (g t) = n) ->
  (forall t, nth_error rows t
             = if in_range k m t then Some (g t)
               else nth_error (repeat (repeat NaN n) T) t) ->
  Forall (fun r => length r = n) rows.
Proof.
  intros Hg Nr. apply Forall_forall. intros r Hin.
  destruct (In_nth_error _ _ Hin) as [t Ht]. rewrite Nr in Ht.
  destruct (in_range k m t).
  - injection Ht as <-. apply Hg.
  - apply nth_error_repeat_inv in Ht. subst r. apply repeat_length.
Qed.

(** X9: for an aligned trader a full recompute always returns, whatever
    the formulas forecast and however short the history: both histories
    get one entry per time step, every row of the matrix has [n_terms]
    entries, and every entry before [max_lag] is the undefined marker. *)
Theorem recalc_shape_and_lag (self : Trader) (H : features) :
  aligned self ->
  exists self' rows,
    _recalc_predicts_hist H self = (self', Ok tt) /\
    same_config self self' /\
    length (_pred_hist self') = length H /\
    _pred_hist_formulas self' = np.Arr2 (n_terms self) rows /\
    length rows = length H /\
    Forall (fun r => length r = n_terms self) rows /\
    forall t, t < max_lag self -> t < length H ->
      nth_error (_pred_hist self') t = Some NaN /\
      nth_error rows t = Some (repeat NaN (n_terms self)).
Proof.
  intros Hal.
  destruct (recalc_ok H self Hal) as (s' & rows & E & C & Lh & Nh & Mr & Lr & Nr).
  exists s', rows.
  split; [exact E|]. split; [exact C|]. split; [exact Lh|].
  split; [exact Mr|]. split; [exact Lr|]. split.
  - apply (rows_width _ _ _ _ _ _
             (fun t => eq_trans (formula_row_length self _)
                         (eq_sym (proj1 Hal))) Nr).
  - intros t Ht HT. rewrite Nh, Nr, in_range_below by exact Ht.
    split; apply nth_error_repeat_lt; exact HT.
Qed.

Lemma recalc_shape_and_lag_witness :
  exists self' rows,
    _recalc_predicts_hist regression_features
      (__init__ [z 1; z 1] [undefined_formula; newest 1] 2) = (self', Ok tt) /\
    _pred_hist_formulas self' = np.Arr2 2 rows /\
    length rows = 3 /\
    nth_error rows 1 = Some [NaN; NaN].
Proof.
  destruct (recalc_shape_and_lag
              (__init__ [z 1; z 1] [undefined_formula; newest 1] 2)
              regression_features)
    as (s' & rows & E & _ & _ & Mr & Lr & _ & Hlag); [split; reflexivity|].
  exists s', rows. split; [exact E|]. split; [exact Mr|]. split; [exact Lr|].
  apply (Hlag 1); simpl; lia.
Defined.

(** X10: over a history no longer than [max_lag] the loop body never runs:
    the recompute returns for any trader, aligned or not, and leaves both
    histories filled with undefined markers, one entry per time step. *)
Theorem recalc_short_history (self : Trader) (H : features) :
  length H <= max_lag self ->
  _recalc_predicts_hist H self
  = (set__pred_hist_formulas
       (np.Arr2 (n_terms self) (repeat (repeat NaN (n_terms self)) (length H)))
       (set__pred_hist (repeat NaN (length H)) self),
     Ok tt).
Proof.
  intros Hshort.
  unfold _recalc_predicts_hist, range, bind, assign, read.
  cbn [n_terms max_lag set__pred_hist set__pred_hist_formulas].
  replace (length H - max_lag self) with 0 by lia.
  rewrite nan_array, nan_matrix. reflexivity.
Qed.

Lemma recalc_short_history_witness :
  _pred_hist (fst (_recalc_predicts_hist [[z 1]; [z 2]]
                     (__init__ [z 1; z 2; z 3] [newest 0] 5)))
  = [NaN; NaN].
Proof.
  rewrite (recalc_short_history (__init__ [z 1; z 2; z 3] [newest 0] 5)
             [[z 1]; [z 2]]); [reflexivity | simpl; lia].
Defined.

Lemma predict_with_formula_mismatch (s : Trader) (H : features) :
  n_terms s = length (formulas s) ->
  length (weights s) <> length (formulas s) ->
  length (weights s) <> 1 -> length (formulas s) <> 1 ->
  _predict_with_formula s H = Raise ValueError.
Proof.
  intros Hn Hne Hw Hf. unfold _predict_with_formula.
  rewrite formula_comprehension by exact Hn. simpl.
  unfold np.multiply. rewrite formula_row_length.
  destruct (Nat.eqb_spec (length (weights s)) (length (formulas s))) as [E|_];
    [congruence|].
  pose proof (formula_row_length s H) as Hr.
  destruct (weights s) as [|w [|w' ws]]; simpl in *; try congruence;
    destruct (formula_row s H) as [|p [|p' row]]; simpl in *;
    try reflexivity; congruence.
Qed.

(** X11: when the weights cannot be broadcast against the formula
    predictions (their number is neither [n_terms] nor 1, with at least two
    formulas or none), [_append_predicts] raises [ValueError] and leaves
    the trader as it was, but [_recalc_predicts_hist] over a history longer
    than [max_lag] raises after it has already replaced both histories by
    undefined markers: the histories held before are lost. *)
Theorem misaligned_weights_raise (self : Trader) (H : features) :
  n_terms self = length (formulas self) ->
  length (weights self) <> length (formulas self) ->
  length (weights self) <> 1 -> length (formulas self) <> 1 ->
  _append_predicts H self = (self, Raise ValueError) /\
  (max_lag self < length H ->
   _recalc_predicts_hist H self
   = (set__pred_hist_formulas
        (np.Arr2 (n_terms self) (repeat (repeat NaN (n_terms self)) (length H)))
        (set__pred_hist (repeat NaN (length H)) self),
      Raise ValueError)).
Proof.
  intros Hn Hne Hw Hf. split.
  - unfold _append_predicts, bind, this, lift.
    now rewrite predict_with_formula_mismatch.
  - intros Hlag.
    unfold _recalc_predicts_hist, range, bind at 1 2 3 4, assign, read.
    cbn [n_terms max_lag set__pred_hist set__pred_hist_formulas].
    rewrite nan_array, nan_matrix.
    destruct (length H - max_lag self) as [|k] eqn:Ek; [lia|].
    simpl. unfold bind at 1. unfold recalc_step at 1.
    unfold bind at 1. unfold this at 1. unfold bind at 1. unfold lift at 1.
    rewrite predict_with_formula_mismatch by assumption. reflexivity.
Qed.

Lemma misaligned_weights_raise_witness :
  _append_predicts regression_features
    (set_weights [z 1; z 1; z 1] regression_trader)
  = (set_weights [z 1; z 1; z 1] regression_trader, Raise ValueError) /\
  _pred_hist (fst (_recalc_predicts_hist regression_features
                     (set_weights [z 1; z 1; z 1] regression_trader)))
  = [NaN; NaN; NaN].
Proof.
  destruct (misaligned_weights_raise
              (set_weights [z 1; z 1; z 1] regression_trader)
              regression_features) as [Ha Hr];
    [reflexivity | simpl; discriminate | simpl; discriminate
    | simpl; discriminate |].
  split; [exact Ha|].
  rewrite Hr; [reflexivity | simpl; lia].
Defined.

(** ** How append and recompute compose *)

Lemma append_outcome (H : features) (s s' : Trader) (res : result unit) :
  _append_predicts H s = (s', res) ->
  same_config s s' /\
  match res with Ok _ => True | Raise _ => s' = s end.
Proof.
  unfold _append_predicts, bind, this, lift, read, assign.
  destruct (_predict_with_formula s H) as [[pred preds_f]|e];
    intros E; injection E as <- <-; split;
    try exact I; try reflexivity; repeat split.
Qed.

(** X12: [_append_predicts] assigns only the two histories, and only after
    the prediction succeeded: the configuration and the score are kept in
    every case, and when it raises the trader is the one before. *)
Theorem append_touches_only_histories (self self' : Trader) (H : features)
    (res : result unit) :
  _append_predicts H self = (self', res) ->
  same_config self self' /\
  match res with Ok _ => True | Raise _ => self' = self end.
Proof. apply append_outcome. Qed.

Lemma append_touches_only_histories_witness :
  same_config two_term_trader
    (fst (_append_predicts regression_features two_term_trader)).
Proof.
  exact (proj1 (append_touches_only_histories two_term_trader _
                  regression_features _ (surjective_pairing _))).
Defined.

Lemma recalc_step_config (H : features) (t : nat) (s : Trader) :
  same_config s (fst (recalc_step H t s)).
Proof.
  unfold recalc_step, bind, this, lift, read, assign.
  destruct (_predict_with_formula s _) as [[pred preds_f]|e];
    [|apply same_config_refl].
  destruct (np.set_nth (_pred_hist s) t pred) as [h'|e];
    [|apply same_config_refl].
  cbn [_pred_hist_formulas set__pred_hist].
  destruct (np.setitem (_pred_hist_formulas s) t preds_f) as [m'|e];
    repeat split.
Qed.

Lemma for_each_config (H : features) (l : list nat) : forall s,
  same_config s (fst (for_each l (recalc_step H) s)).
Proof.
  induction l as [|t l IH]; intros s; simpl; [apply same_config_refl|].
  unfold bind. pose proof (recalc_step_config H t s) as C.
  destruct (recalc_step H t s) as [s1 [u|e]]; simpl in *; [|exact C].
  exact (same_config_trans _ _ _ C (IH s1)).
Qed.

Lemma recalc_config (H : features) (s : Trader) :
  same_config s (fst (_recalc_predicts_hist H s)).
Proof.
  unfold _recalc_predicts_hist, bind at 1 2 3 4, assign, read.
  cbn [n_terms max_lag set__pred_hist set__pred_hist_formulas].
  match goal with |- same_config _ (fst (for_each ?l _ ?s0)) =>
    apply (same_config_trans _ s0); [repeat split | apply for_each_config]
  end.
Qed.

(** A recompute reads the configuration and nothing of the histories. *)
Lemma recalc_reads_config_only (H : features) (s1 s2 : Trader) :
  same_config s1 s2 ->
  _recalc_predicts_hist H s2 = _recalc_predicts_hist H s1.
Proof.
  destruct s1, s2. unfold same_config. simpl.
  intros (-> & -> & -> & -> & ->). reflexivity.
Qed.

(** X13: a full recompute discards whatever the histories held: run after
    an append, or after an earlier recompute over any other feature
    history, whether those returned or raised, it gives exactly what it
    gives without them.  In particular it restores the two-dimensional
    per-formula matrix that an append has flattened. *)
Theorem recalc_discards_prior_history (self : Trader) (H H' : features) :
  _recalc_predicts_hist H (fst (_append_predicts H' self))
  = _recalc_predicts_hist H self /\
  _recalc_predicts_hist H (fst (_recalc_predicts_hist H' self))
  = _recalc_predicts_hist H self.
Proof.
  split; apply recalc_reads_config_only.
  - exact (proj1 (append_outcome H' self _ _ (surjective_pairing _))).
  - apply recalc_config.
Qed.

Lemma pointwise_snoc {A} (ml T : nat) (d : A) (g g' : nat -> A)
    (l l' : list A) :
  ml < T ->
  (forall t, nth_error l t
             = if in_range ml (T - ml) t then Some (g t)
               else nth_error (repeat d T) t) ->
  (forall t, nth_error l' t
             = if in_range ml (T - 1 - ml) t then Some (g' t)
               else nth_error (repeat d (T - 1)) t) ->
  length l' = T - 1 ->
  (forall t, t < T - 1 -> g' t = g t) ->
  l = l' ++ [g (T - 1)].
Proof.
  intros Hlag Nl Nl' Ll' Hg. apply nth_error_ext. intros t.
  rewrite Nl. unfold in_range in *.
  destruct (Nat.lt_trichotomy t (T - 1)) as [Hlt | [-> | Hgt]].
  - rewrite nth_error_app1 by lia. rewrite Nl'.
    destruct (Nat.leb_spec ml t), (Nat.ltb_spec t (ml + (T - ml))),
      (Nat.ltb_spec t (ml + (T - 1 - ml))); simpl; try lia.
    + now rewrite Hg.
    + now rewrite !nth_error_repeat_lt by lia.
  - rewrite nth_error_app2 by lia. rewrite Ll', Nat.sub_diag. simpl.
    destruct (Nat.leb_spec ml (T - 1)), (Nat.ltb_spec (T - 1) (ml + (T - ml)));
      simpl; try lia. reflexivity.
  - rewrite nth_error_app2 by lia. rewrite Ll'.
    destruct (Nat.leb_spec ml t), (Nat.ltb_spec t (ml + (T - ml)));
      simpl; try lia.
    all: destruct (t - (T - 1)) as [|[|k]] eqn:Ek; simpl; try lia;
      apply nth_error_None; rewrite repeat_length; lia.
Qed.

Lemma firstn_removelast_prefix {A} (l : list A) t :
  t < length l - 1 -> firstn (t + 1) (removelast l) = firstn (t + 1) l.
Proof. intros Ht. apply firstn_removelast. lia. Qed.

Lemma removelast_length {A} (l : list A) : length (removelast l) = length l - 1.
Proof.
  rewrite removelast_firstn_len, length_firstn. lia.
Qed.

(** X14: for an aligned trader and a history [H] longer than [max_lag],
    recompute over [H[:-1]] followed by an append of [H] holds the same
    agent-level history as a recompute over [H], and its per-formula array
    holds the same values in row-major order; only the two-dimensional
    shape is gone. *)
Theorem append_after_recalc_same_data (self : Trader) (H : features) :
  aligned self ->
  max_lag self < length H ->
  exists full part incr,
    _recalc_predicts_hist H self = (full, Ok tt) /\
    _recalc_predicts_hist (removelast H) self = (part, Ok tt) /\
    _append_predicts H part = (incr, Ok tt) /\
    _pred_hist incr = _pred_hist full /\
    np.ravel (_pred_hist_formulas incr) = np.ravel (_pred_hist_formulas full) /\
    np.ndim (_pred_hist_formulas incr) = 1 /\
    np.ndim (_pred_hist_formulas full) = 2.
Proof.
  intros Hal Hlag.
  destruct (recalc_ok H self Hal)
    as (full & rows & E1 & _ & Lh & Nh & Mr & Lr & Nr).
  destruct (recalc_ok (removelast H) self Hal)
    as (part & rows' & E2 & C2 & Lh' & Nh' & Mr' & Lr' & Nr').
  destruct (append_ok H part (aligned_config _ _ C2 Hal))
    as (incr & E3 & _ & Eh & Em).
  rewrite removelast_length in *.
  assert (Hwhole : firstn (length H - 1 + 1) H = H) by apply firstn_whole.
  assert (Hhist : _pred_hist full = _pred_hist part ++ [combined self H]).
  { replace (combined self H)
      with (combined self (firstn (length H - 1 + 1) H)) by now rewrite Hwhole.
    apply (pointwise_snoc (max_lag self) (length H) NaN
             (fun t => combined self (firstn (t + 1) H))
             (fun t => combined self (firstn (t + 1) (removelast H))));
      try assumption.
    intros t Ht. now rewrite firstn_removelast_prefix. }
  assert (Hrows : rows = rows' ++ [formula_row self H]).
  { replace (formula_row self H)
      with (formula_row self (firstn (length H - 1 + 1) H)) by now rewrite Hwhole.
    apply (pointwise_snoc (max_lag self) (length H) (repeat NaN (n_terms self))
             (fun t => formula_row self (firstn (t + 1) H))
             (fun t => formula_row self (firstn (t + 1) (removelast H))));
      try assumption.
    intros t Ht. now rewrite firstn_removelast_prefix. }
  exists full, part, incr.
  split; [exact E1|]. split; [exact E2|]. split; [exact E3|].
  split; [rewrite Eh, Hhist, (combined_config _ _ _ C2); reflexivity|].
  split; [|rewrite Em, Mr; split; reflexivity].
  rewrite Em, Mr, Mr', Hrows, (formula_row_config _ _ _ C2). simpl.
  rewrite concat_app. simpl. now rewrite app_nil_r.
Qed.

Lemma append_after_recalc_same_data_witness :
  exists full incr,
    _recalc_predicts_hist regression_features two_term_trader = (full, Ok tt) /\
    _append_predicts regression_features
      (fst (_recalc_predicts_hist (removelast regression_features)
              two_term_trader)) = (incr, Ok tt) /\
    _pred_hist incr = _pred_hist full /\
    np.ravel (_pred_hist_formulas incr) = np.ravel (_pred_hist_formulas full).
Proof.
  destruct (append_after_recalc_same_data two_term_trader regression_features)
    as (full & part & incr & E1 & E2 & E3 & Hh & Hr & _);
    [split; reflexivity | simpl; lia |].
  exists full, incr. split; [exact E1|].
  rewrite E2. simpl. split; [exact E3|]. split; assumption.
Defined.

(** X15: the histories stay co-indexed as flat data.  A new trader, the
    result of a full recompute, and the result of an append onto histories
    that have the property, all hold exactly [n_terms] per-formula entries
    per agent-level entry, so the per-formula values of step [t] sit at
    offsets [t * n_terms .. (t + 1) * n_terms - 1] of the flattened array
    after any sequence of appends. *)
Theorem flat_coindexing_kept (self : Trader) (H : features) :
  aligned self ->
  flat_coindexed (__init__ (weights self) (formulas self) (max_lag self)) /\
  flat_coindexed (fst (_recalc_predicts_hist H self)) /\
  (flat_coindexed self -> flat_coindexed (fst (_append_predicts H self))).
Proof.
  intros Hal. unfold flat_coindexed. split; [|split].
  - unfold __init__. cbn [_pred_hist _pred_hist_formulas n_terms].
    rewrite nan_array, nan_matrix. simpl.
    rewrite (concat_length_uniform _ (length (formulas self)))
      by (apply Forall_repeat, repeat_length).
    now rewrite !repeat_length.
  - destruct (recalc_ok H self Hal)
      as (s' & rows & E & C & Lh & _ & Mr & Lr & Nr).
    rewrite E. simpl. rewrite Mr. simpl.
    rewrite (concat_length_uniform rows (n_terms self)).
    + destruct C as [-> _]. congruence.
    + apply (rows_width _ _ _ _ _ _
               (fun t => eq_trans (formula_row_length self _)
                           (eq_sym (proj1 Hal))) Nr).
  - intros Hflat.
    destruct (append_ok H self Hal) as (s' & E & C & Eh & Em).
    rewrite E. simpl. rewrite Em, Eh. simpl.
    rewrite !length_app, Hflat, formula_row_length. simpl.
    destruct C as [-> _]. destruct Hal as [-> _]. lia.
Qed.

Lemma flat_coindexing_kept_witness :
  flat_coindexed
    (fst (_append_predicts regression_features
            (fst (_append_predicts (removelast regression_features)
                    (fst (_recalc_predicts_hist [[z 1; z 0]] two_term_trader)))))).
Proof.
  apply flat_coindexing_kept.
  - split; reflexivity.
  - apply flat_coindexing_kept; [split; reflexivity|].
    apply flat_coindexing_kept. split; reflexivity.
Defined.

(** ** Weights that do not match the formulas *)

Lemma comprehension_raise {A B} (f : A -> result B) (e : exn) (x : A)
    (l1 l2 : list A) :
  (forall y, In y l1 -> exists v, f y = Ok v) ->
  f x = Raise e ->
  comprehension f (l1 ++ x :: l2) = Raise e.
Proof.
  intros Hok Hx. induction l1 as [|y l1 IH]; simpl.
  - now rewrite Hx.
  - destruct (Hok y (or_introl eq_refl)) as [v ->]. simpl.
    rewrite IH; [reflexivity|]. intros y' Hy'. apply Hok. now right.
Qed.

(** X16: with fewer weights than formulas [predict] raises [IndexError];
    yet a single weight is accepted by [_predict_with_formula], which
    broadcasts it over all formula predictions, so the histories can be
    built for a trader whose [predict] always raises. *)
Theorem too_few_weights (self : Trader) (H : features) :
  n_terms self = length (formulas self) ->
  length (weights self) < length (formulas self) ->
  predict self H = Raise IndexError /\
  forall w, weights self = [w] ->
    _predict_with_formula self H
    = Ok (np.sum (map (fun p => fmul w p) (formula_row self H)),
          np.reshape_row (formula_row self H)).
Proof.
  intros Hn Hlt. split.
  - unfold predict, range. rewrite Nat.sub_0_r, Hn.
    replace (length (formulas self))
      with (length (weights self)
            + S (length (formulas self) - length (weights self) - 1)) by lia.
    rewrite seq_app. simpl.
    rewrite (comprehension_raise _ IndexError); [reflexivity | |].
    + intros j Hj. apply in_seq in Hj.
      rewrite (getitem_nth _ _ NaN) by lia.
      rewrite (getitem_nth _ _ undefined_formula) by lia.
      simpl. eexists. reflexivity.
    + unfold getitem at 1.
      assert (Hnone : nth_error (weights self) (length (weights self)) = None)
        by (apply nth_error_None; lia).
      now rewrite Hnone.
  - intros w Hw. unfold _predict_with_formula.
    rewrite formula_comprehension by exact Hn. simpl.
    unfold np.multiply. rewrite formula_row_length, Hw.
    rewrite Hw in Hlt. simpl in Hlt.
    destruct (Nat.eqb_spec (length [w]) (length (formulas self))) as [E|_];
      [simpl in E; lia | reflexivity].
Qed.

Lemma too_few_weights_witness :
  predict (set_weights [z 3] two_term_trader) regression_features
  = Raise IndexError /\
  _predict_with_formula (set_weights [z 3] two_term_trader) regression_features
  = Ok (z 6, np.Arr2 2 [[z 1; z 1]]).
Proof.
  destruct (too_few_weights (set_weights [z 3] two_term_trader)
              regression_features) as [Hp Hf];
    [reflexivity | simpl; lia |].
  split; [exact Hp|]. rewrite (Hf (z 3) eq_refl). reflexivity.
Defined.




(** ** Unchecked lengths *)

(** X18: [_append_predicts] does not look at the length of the histories:
    for an aligned trader and any feature history it returns, and the
    combined value [_predict_with_formula] computes for that feature
    history becomes the new last entry, after all entries held before,
    whether or not the history then has one entry per observation. *)
Theorem append_is_unchecked (self : Trader) (H : features) :
  aligned self ->
  exists self' v m,
    _predict_with_formula self H = Ok (v, m) /\
    _append_predicts H self = (self', Ok tt) /\
    _pred_hist self' = _pred_hist self ++ [v] /\
    length (_pred_hist self') = length (_pred_hist self) + 1.
Proof.
  intros Hal.
  destruct (append_ok H self Hal) as (s' & E & _ & Eh & _).
  exists s', (combined self H), (np.reshape_row (formula_row self H)).
  split; [apply predict_with_formula_ok; apply Hal|].
  split; [exact E|].
  split; [exact Eh|]. rewrite Eh, length_app. reflexivity.
Qed.

Lemma append_is_unchecked_witness :
  exists self',
    _append_predicts [[z 4; z 5]] (__init__ [z 2; z 3] [newest 0; newest 1] 2)
    = (self', Ok tt) /\
    _pred_hist self' = [NaN; NaN; z 23].
Proof.
  destruct (append_is_unchecked (__init__ [z 2; z 3] [newest 0; newest 1] 2)
              [[z 4; z 5]]) as (s' & v & m & Hp & E & Hh & _);
    [split; reflexivity|].
  exists s'. split; [exact E|].
  rewrite Hh. vm_compute in Hp. injection Hp as <- _. reflexivity.
Defined.

Lemma map2_repeat_r (a : list float) (x : float) :
  np.map2 fmul a (repeat x (length a)) = map (fun y => fmul y x) a.
Proof. induction a as [|y a IH]; simpl; [reflexivity|]. now rewrite IH. Qed.

(** X19: a return array with a single entry is not rejected: the default
    evaluation broadcasts that one return over the whole prediction
    history, giving what it gives for the return array that repeats it at
    every position. *)
Theorem single_return_is_broadcast (self : Trader) (x : float) :
  _update_score [x] "default" self
  = _update_score (repeat x (length (_pred_hist self))) "default" self.
Proof.
  rewrite (update_score_aligned self (repeat x _)) by apply repeat_length.
  unfold masked_score.
  replace (np.map2 fmul (np.sign (_pred_hist self))
             (repeat x (length (_pred_hist self))))
    with (map (fun y => fmul y x) (np.sign (_pred_hist self)))
    by (rewrite <- map2_repeat_r; unfold np.sign; now rewrite length_map).
  unfold _update_score. cbn [String.eqb Ascii.eqb Bool.eqb].
  unfold bind, read, lift, assign, np.multiply, np.mask1.
  destruct (_pred_hist self) as [|p [|p' h]]; simpl; try reflexivity.
  unfold np.invert, np.isnan, np.sign. rewrite !length_map, Nat.eqb_refl.
  reflexivity.
Qed.
